(** * ToDo REST API: the task lifecycle of express_server_app

    A shallow embedding of the request pipeline of the repository

      - models/ToDo.js             (the task class)
      - models/MongoConnection.js  (the store adapter)
      - middlewares/validation.js  (validateToDo, validateId)
      - controllers/ToDoController.js
      - routes/ToDoRoutes.js       (the middleware chains)

    followed by the properties of the task lifecycle: identifier
    assignment, partial updates, not-found detection and validation.

    Conventions of the embedding.
      - A JavaScript number that the program computes with is an
        identifier: an integer-valued double.  It is a [Z]; the results
        of [parseInt] and of [+] are rounded to the nearest double
        ([round_double]), and [2^1024] stands for [Infinity].  A number
        of a request body is only tested for being zero and for its
        type, so integers stand for all of them.
      - A JavaScript string is a [string] whose characters are its code
        units (code units below 256).
      - The document collection of the database is a list of documents in
        natural (insertion) order; the driver calls [insertOne],
        [find({}).toArray()], [updateOne] and [deleteOne] act on the first
        matching document, as the MongoDB driver documents them.  The
        handlers are embedded over a store whose calls return; what they
        do when a call throws, through the [catch] of the controller and
        middlewares/errorHandler.js, is embedded after them.  Limits of
        the engine (the number of arguments that a spread may pass to
        [Math.max]) are not part of the embedding.
      - Handlers run in a small state-and-trace monad: the state is the
        collection, the trace records every call of a store-adapter
        method. *)

From Stdlib Require Import ZArith String Ascii List Lia Bool Sorted.
From Stdlib Require Import DecimalString DecimalPos.
From stdpp Require Import base list.

Import ListNotations.
Local Open Scope Z_scope.
Set Warnings "-register-all".

(** ** JavaScript values *)

Module JS.

(** The values a parsed JSON body can hold, and [undefined] for a
    property that is absent. *)
Inductive jsval : Type :=
| JUndefined
| JNull
| JBool (b : bool)
| JNum (n : Z)
| JStr (s : string)
| JArr (items : list jsval)
| JObj (fields : list (string * jsval)).

(** [typeof v] *)
Inductive jstype : Type :=
| TUndefined | TObject | TBoolean | TNumber | TString.

Definition typeof (v : jsval) : jstype :=
  match v with
  | JUndefined => TUndefined
  | JNull => TObject
  | JBool _ => TBoolean
  | JNum _ => TNumber
  | JStr _ => TString
  | JArr _ => TObject
  | JObj _ => TObject
  end.

Definition jstype_eqb (a b : jstype) : bool :=
  match a, b with
  | TUndefined, TUndefined | TObject, TObject | TBoolean, TBoolean
  | TNumber, TNumber | TString, TString => true
  | _, _ => false
  end.

(** [ToBoolean v]: the falsy values are [undefined], [null], [false],
    [0] and the empty string. *)
Definition truthy (v : jsval) : bool :=
  match v with
  | JUndefined => false
  | JNull => false
  | JBool b => b
  | JNum n => negb (n =? 0)
  | JStr s => negb (String.eqb s "")%string
  | JArr _ => true
  | JObj _ => true
  end.

(** [v !== undefined] *)
Definition is_defined (v : jsval) : bool :=
  match v with
  | JUndefined => false
  | _ => true
  end.

(** Structural equality of values, as the store compares a field with
    the value a [$set] assigns to it. *)
Fixpoint jsval_eqb (a b : jsval) {struct a} : bool :=
  let fix items_eqb (l1 l2 : list jsval) {struct l1} : bool :=
    match l1, l2 with
    | [], [] => true
    | x :: r1, y :: r2 => jsval_eqb x y && items_eqb r1 r2
    | _, _ => false
    end in
  let fix fields_eqb (l1 l2 : list (string * jsval)) {struct l1} : bool :=
    match l1, l2 with
    | [], [] => true
    | (k1, x) :: r1, (k2, y) :: r2 =>
        String.eqb k1 k2 && jsval_eqb x y && fields_eqb r1 r2
    | _, _ => false
    end in
  match a, b with
  | JUndefined, JUndefined => true
  | JNull, JNull => true
  | JBool x, JBool y => Bool.eqb x y
  | JNum x, JNum y => x =? y
  | JStr x, JStr y => String.eqb x y
  | JArr x, JArr y => items_eqb x y
  | JObj x, JObj y => fields_eqb x y
  | _, _ => false
  end.

(** A parsed JSON object: its members in source order.  [JSON.parse]
    keeps the last member of a repeated key. *)
Definition jsobject : Type := list (string * jsval).

Fixpoint get_prop (o : jsobject) (k : string) : jsval :=
  match o with
  | [] => JUndefined
  | (k', v) :: rest =>
      match get_prop rest k with
      | JUndefined => if String.eqb k' k then v else JUndefined
      | later => later
      end
  end.

(** *** Numbers *)

(** The double nearest to an integer, ties to the even significand of
    53 bits.  Up to [2^53] in magnitude every integer is a double; from
    [2^1024 - 2^970] on the nearest double is [Infinity], here
    [2^1024]. *)
Definition round_double (z : Z) : Z :=
  let a := Z.abs z in
  let e := Z.log2 a - 52 in
  if e <=? 0 then z
  else
    let q := Z.shiftr a e in
    let r := a - Z.shiftl q e in
    let half := Z.shiftl 1 (e - 1) in
    let q' := if (half <? r) || ((r =? half) && Z.odd q) then q + 1 else q in
    let m := Z.shiftl q' e in
    Z.sgn z * (if 2 ^ 1024 <=? m then 2 ^ 1024 else m).

(** [a + b] *)
Definition number_add (a b : Z) : Z := round_double (a + b).

(** *** [parseInt] without a radix *)

(** White space that [parseInt] skips: TAB, LF, VT, FF, CR, SP, NBSP. *)
Definition is_white_space (c : ascii) : bool :=
  let n := nat_of_ascii c in
  ((9 <=? n) && (n <=? 13) || (n =? 32) || (n =? 160))%nat.

Fixpoint skip_white_space (s : string) : string :=
  match s with
  | String c rest => if is_white_space c then skip_white_space rest else s
  | EmptyString => EmptyString
  end.

(** The value of a character as a digit of the given radix. *)
Definition digit_value (radix : Z) (c : ascii) : option Z :=
  let n := Z.of_nat (nat_of_ascii c) in
  let d :=
    if (48 <=? n) && (n <=? 57) then Some (n - 48)
    else if (97 <=? n) && (n <=? 122) then Some (n - 97 + 10)
    else if (65 <=? n) && (n <=? 90) then Some (n - 65 + 10)
    else None in
  match d with
  | Some v => if v <? radix then Some v else None
  | None => None
  end.

(** The longest prefix of digits, read left to right; [None] while no
    digit has been read. *)
Fixpoint parse_digits (radix : Z) (acc : option Z) (s : string) : option Z :=
  match s with
  | EmptyString => acc
  | String c rest =>
      match digit_value radix c with
      | Some d =>
          parse_digits radix
            (Some (match acc with Some a => a * radix + d | None => d end))
            rest
      | None => acc
      end
  end.

(** [parseInt(s)]; [None] is [NaN]. *)
Definition parseInt (s : string) : option Z :=
  let s1 := skip_white_space s in
  let '(sign, s2) :=
    match s1 with
    | String "-" rest => (-1, rest)
    | String "+" rest => (1, rest)
    | _ => (1, s1)
    end in
  let '(radix, s3) :=
    match s2 with
    | String "0" (String "x" rest) => (16, rest)
    | String "0" (String "X" rest) => (16, rest)
    | _ => (10, s2)
    end in
  match parse_digits radix None s3 with
  | Some n => Some (round_double (sign * n))
  | None => None
  end.

(** *** [String(n)] *)

(** The decimal digits of an integer, with a minus sign when it is
    negative. *)
Definition decimal (n : Z) : string :=
  NilZero.string_of_int (Z.to_int n).

Definition number_of_digits (n : Z) : Z :=
  Z.of_nat (String.length (decimal n)).

(** The decimal with the fewest significant digits whose nearest double
    is [x]: with [k] digits the two candidates are the multiples of
    [10^(digits - k)] around [x]; of two that qualify the nearer is
    taken, and the one with the even last digit when they are equally
    near. *)
Fixpoint shortest_from (fuel : nat) (x digits k : Z) : Z :=
  match fuel with
  | O => x
  | S fuel' =>
      let unit := 10 ^ (digits - k) in
      let lo := (x / unit) * unit in
      let hi := lo + unit in
      let lo_ok := round_double lo =? x in
      let hi_ok := round_double hi =? x in
      if lo_ok && hi_ok then
        if x - lo <? hi - x then lo
        else if hi - x <? x - lo then hi
        else if Z.even (x / unit) then lo else hi
      else if lo_ok then lo
      else if hi_ok then hi
      else shortest_from fuel' x digits (k + 1)
  end.

Definition shortest (x : Z) : Z :=
  shortest_from (Z.to_nat (number_of_digits x)) x (number_of_digits x) 1.

Fixpoint strip_zeros (fuel : nat) (s : Z) : Z :=
  match fuel with
  | O => s
  | S fuel' => if s mod 10 =? 0 then strip_zeros fuel' (s / 10) else s
  end.

(** The digits of a positive number: the shortest decimal, written out
    when it has at most 21 digits, and otherwise its first digit, a
    point and the other significant digits when there are any, and the
    exponent. *)
Definition digits_of_number (x : Z) : string :=
  let v := shortest x in
  let n := number_of_digits v in
  if n <=? 21 then decimal v
  else
    let s := decimal (strip_zeros (Z.to_nat n) v) in
    match s with
    | String d EmptyString => String d ("e+" ++ decimal (n - 1))%string
    | String d rest =>
        String d ("." ++ rest ++ "e+" ++ decimal (n - 1))%string
    | EmptyString => EmptyString
    end.

(** [String(n)].  Up to [2^53] the shortest decimal of an integer is the
    integer itself. *)
Definition number_to_string (n : Z) : string :=
  if n =? 0 then "0"%string
  else
    let a := Z.abs n in
    let digits :=
      if a <=? 2 ^ 53 then decimal a
      else if 2 ^ 1024 <=? a then "Infinity"%string
      else digits_of_number a in
    if n <? 0 then ("-" ++ digits)%string else digits.

End JS.

Import JS.


(** ** models/ToDo.js *)

Module ToDo.

(** The three private fields [#id], [#title], [#completed]. *)
Record t : Type := mk { id : Z; title : jsval; completed : jsval }.

(** [constructor(id, title, completed = false)] *)
Definition new (id : Z) (title completed : jsval) : t :=
  {| id := id;
     title := title;
     completed := match completed with
                  | JUndefined => JBool false
                  | c => c
                  end |}.

(** The own enumerable properties of an instance, which is what
    [JSON.stringify] visits.  The state of a [ToDo] is held in private
    fields, and [id], [title] and [completed] are accessors of the
    prototype: an instance has no own property. *)
Definition own_properties (todo : t) : jsobject := [].

End ToDo.

(** ** The document collection *)

(** A stored document: the storage identifier [_id] that [insertOne]
    generates (an ObjectId, here the value of a counter) and the three
    fields written by [insertToDo]. *)
Record document : Type :=
  { _id : nat; id : Z; title : jsval; completed : jsval }.

Record collection : Type :=
  { docs : list document; next_oid : nat }.

(** The object that [ToDoController.update] builds for [$set]: a
    property is present only when the controller has assigned it. *)
Record update_data : Type :=
  { set_title : option jsval; set_completed : option jsval }.

Definition apply_set (u : update_data) (d : document) : document :=
  {| _id := _id d;
     id := id d;
     title := match set_title u with Some v => v | None => title d end;
     completed :=
       match set_completed u with Some v => v | None => completed d end |}.

Definition document_eqb (a b : document) : bool :=
  Nat.eqb (_id a) (_id b) && (id a =? id b)
  && jsval_eqb (title a) (title b) && jsval_eqb (completed a) (completed b).

(** A number as a query or a search key: [None] is [NaN], which equals
    no identifier. *)
Definition matches_id (key : option Z) (d : document) : Prop :=
  key = Some (id d).

#[global] Instance matches_id_dec key d : Decision (matches_id key d).
Proof. unfold matches_id. solve_decision. Defined.

(** [todos.find(t => t.id === key)] *)
Definition find_todo (key : option Z) (todos : list document)
  : option document :=
  snd <$> list_find (matches_id key) todos.

Record update_result : Type :=
  { matchedCount : Z; modifiedCount : Z }.

Record delete_result : Type := { deletedCount : Z }.

(** [collection.updateOne({ id: key }, { $set: u })]: the first
    matching document receives the fields of [u]; it counts as modified
    when a field has changed.  A [$set] without fields changes nothing
    (MongoDB 5.0 and later accept it). *)
Definition updateOne (key : option Z) (u : update_data) (l : list document)
  : list document * update_result :=
  match list_find (matches_id key) l with
  | Some (i, d) =>
      let d' := apply_set u d in
      (<[i := d']> l,
       {| matchedCount := 1;
          modifiedCount := if document_eqb d d' then 0 else 1 |})
  | None => (l, {| matchedCount := 0; modifiedCount := 0 |})
  end.

(** [collection.deleteOne({ id: key })]: the first matching document is
    removed. *)
Definition deleteOne (key : option Z) (l : list document)
  : list document * delete_result :=
  match list_find (matches_id key) l with
  | Some (i, _) => (delete i l, {| deletedCount := 1 |})
  | None => (l, {| deletedCount := 0 |})
  end.

(** ** Handlers: state and trace *)

(** The methods of the store adapter (models/MongoConnection.js). *)
Inductive store_call : Type :=
| Connect | InsertToDo | GetAllToDos | UpdateToDo | DeleteToDo.

Definition M (A : Type) : Type :=
  collection -> A * collection * list store_call.

#[global] Instance M_ret : MRet M := fun A a c => (a, c, []).

#[global] Instance M_bind : MBind M := fun A B k m c =>
  let '(a, c1, t1) := m c in
  let '(b, c2, t2) := k a c1 in
  (b, c2, t1 ++ t2).

Definition result {A} (r : A * collection * list store_call) : A :=
  fst (fst r).
Definition final {A} (r : A * collection * list store_call) : collection :=
  snd (fst r).
Definition trace {A} (r : A * collection * list store_call)
  : list store_call := snd r.

(** ** models/MongoConnection.js *)

Module MongoConnection.

Definition connect : M unit := fun c => (tt, c, [Connect]).

(** Returns the storage identifier of the inserted document. *)
Definition insertToDo (todo : ToDo.t) : M nat :=
  fun c =>
    let doc := {| _id := next_oid c;
                  id := ToDo.id todo;
                  title := ToDo.title todo;
                  completed := ToDo.completed todo |} in
    (next_oid c,
     {| docs := docs c ++ [doc]; next_oid := S (next_oid c) |},
     [InsertToDo]).

Definition getAllToDos : M (list document) :=
  fun c => (docs c, c, [GetAllToDos]).

Definition updateToDo (key : option Z) (updateData : update_data)
  : M update_result :=
  fun c =>
    let '(l, r) := updateOne key updateData (docs c) in
    (r, {| docs := l; next_oid := next_oid c |}, [UpdateToDo]).

Definition deleteToDo (key : option Z) : M delete_result :=
  fun c =>
    let '(l, r) := deleteOne key (docs c) in
    (r, {| docs := l; next_oid := next_oid c |}, [DeleteToDo]).

End MongoConnection.

(** ** Requests and responses *)

Inductive http_method : Type := GET | POST | PUT | DELETE.

Definition http_method_eqb (a b : http_method) : bool :=
  match a, b with
  | GET, GET | POST, POST | PUT, PUT | DELETE, DELETE => true
  | _, _ => false
  end.

(** [req.params.id]: absent on the routes without [:id], the raw path
    segment when the route matches, a number once [validateId] has
    replaced it. *)
Inductive param : Type :=
| NoParam
| RawParam (s : string)
| NumParam (n : Z).

(** [parseInt(req.params.id)]: the argument is converted to a string
    first; the string of [undefined] has no digit. *)
Definition parseInt_param (p : param) : option Z :=
  match p with
  | NoParam => None
  | RawParam s => parseInt s
  | NumParam n => parseInt (number_to_string n)
  end.

Record request : Type :=
  { method : http_method; params_id : param; body : jsobject }.

(** The texts of the [error] property of the error responses. *)
Inductive error_message : Type :=
| Campo_title_requerido        (* El campo "title" es requerido *)
| Campo_title_cadena           (* El campo "title" debe ser una cadena de texto *)
| Campo_completed_booleano     (* El campo "completed" debe ser un booleano *)
| ID_numero_valido             (* El ID debe ser un numero valido *)
| Titulo_requerido             (* El titulo es requerido *)
| ToDo_no_encontrado.          (* ToDo no encontrado *)

(** What [res.json] serialises: the own enumerable properties of its
    argument. *)
Inductive payload : Type :=
| ErrorObject (m : error_message)
| Document (d : document)
| Documents (l : list document)
| Properties (o : jsobject)
| Undefined.

(** [sent] is [None] for [send()] without a body. *)
Record response : Type := { status : Z; sent : option payload }.

(** [res.status(code).json(p)] *)
Definition json (code : Z) (p : payload) : response :=
  {| status := code; sent := Some p |}.

(** ** middlewares/validation.js *)

(** A middleware answers the request or passes it on, possibly
    changed, with [next()]. *)
Definition middleware : Type := request -> response + request.

Definition validateToDo : middleware := fun req =>
  let title := get_prop (body req) "title" in
  let completed := get_prop (body req) "completed" in
  if http_method_eqb (method req) POST && negb (truthy title) then
    inl (json 400 (ErrorObject Campo_title_requerido))
  else if truthy title && negb (jstype_eqb (typeof title) TString) then
    inl (json 400 (ErrorObject Campo_title_cadena))
  else if is_defined completed
          && negb (jstype_eqb (typeof completed) TBoolean) then
    inl (json 400 (ErrorObject Campo_completed_booleano))
  else inr req.

Definition validateId : middleware := fun req =>
  match parseInt_param (params_id req) with
  | None => inl (json 400 (ErrorObject ID_numero_valido))
  | Some id =>
      inr {| method := method req;
             params_id := NumParam id;
             body := body req |}
  end.

(** ** controllers/ToDoController.js *)

Module ToDoController.

Definition connect : M unit := MongoConnection.connect.

Definition getAll (req : request) : M response :=
  connect;;
  todos ← MongoConnection.getAllToDos;
  mret (json 200 (Documents todos)).

Definition getById (req : request) : M response :=
  connect;;
  let id := parseInt_param (params_id req) in
  todos ← MongoConnection.getAllToDos;
  match find_todo id todos with
  | None => mret (json 404 (ErrorObject ToDo_no_encontrado))
  | Some todo => mret (json 200 (Document todo))
  end.

(** [Math.max(x, ...xs)] *)
Definition Math_max (x : Z) (xs : list Z) : Z := fold_left Z.max xs x.

(** [todos.length > 0 ? Math.max(...todos.map(t => t.id)) + 1 : 1] *)
Definition newId (todos : list document) : Z :=
  match map id todos with
  | [] => 1
  | x :: xs => number_add (Math_max x xs) 1
  end.

(** [new ToDo(newId, title, completed)] for the destructured body,
    where [completed] defaults to [false]. *)
Definition newToDo (todos : list document) (b : jsobject) : ToDo.t :=
  let title := get_prop b "title" in
  let completed :=
    match get_prop b "completed" with
    | JUndefined => JBool false
    | c => c
    end in
  ToDo.new (newId todos) title completed.

Definition create (req : request) : M response :=
  connect;;
  if negb (truthy (get_prop (body req) "title")) then
    mret (json 400 (ErrorObject Titulo_requerido))
  else
    todos ← MongoConnection.getAllToDos;
    let todo := newToDo todos (body req) in
    MongoConnection.insertToDo todo;;
    mret (json 201 (Properties (ToDo.own_properties todo))).

(** The object [updateData]: a field of the body is copied when it is
    not [undefined]. *)
Definition updateData (b : jsobject) : update_data :=
  let title := get_prop b "title" in
  let completed := get_prop b "completed" in
  {| set_title := if is_defined title then Some title else None;
     set_completed := if is_defined completed then Some completed else None |}.

Definition update (req : request) : M response :=
  connect;;
  let id := parseInt_param (params_id req) in
  res ← MongoConnection.updateToDo id (updateData (body req));
  if modifiedCount res =? 0 then
    mret (json 404 (ErrorObject ToDo_no_encontrado))
  else
    todos ← MongoConnection.getAllToDos;
    match find_todo id todos with
    | Some updatedTodo => mret (json 200 (Document updatedTodo))
    | None => mret (json 200 Undefined)
    end.

Definition delete (req : request) : M response :=
  connect;;
  let id := parseInt_param (params_id req) in
  res ← MongoConnection.deleteToDo id;
  if deletedCount res =? 0 then
    mret (json 404 (ErrorObject ToDo_no_encontrado))
  else
    mret {| status := 204; sent := None |}.

End ToDoController.

(** ** routes/ToDoRoutes.js *)

(** A route runs its middlewares in order, then its handler. *)
Fixpoint through (ms : list middleware) (handler : request -> M response)
  (req : request) : M response :=
  match ms with
  | [] => handler req
  | m :: rest =>
      match m req with
      | inl res => mret res
      | inr req' => through rest handler req'
      end
  end.

(** The router: the first route whose verb and path pattern match the
    request; [None] when no route of the router matches. *)
Definition router (req : request) : option (M response) :=
  match method req, params_id req with
  | GET, NoParam => Some (through [] ToDoController.getAll req)
  | GET, _ => Some (through [validateId] ToDoController.getById req)
  | POST, NoParam => Some (through [validateToDo] ToDoController.create req)
  | PUT, NoParam => None
  | PUT, _ =>
      Some (through [validateId; validateToDo] ToDoController.update req)
  | DELETE, NoParam => None
  | DELETE, _ => Some (through [validateId] ToDoController.delete req)
  | POST, _ => None
  end.

(** ** The application: routed requests, one after the other *)

(** A request that no route matches is answered outside the router and
    reaches no handler: [None]. *)
Definition serve (req : request) : M (option response) :=
  match router req with
  | Some handler => res ← handler; mret (Some res)
  | None => mret None
  end.

Fixpoint serve_all (reqs : list request) : M (list (option response)) :=
  match reqs with
  | [] => mret []
  | req :: rest =>
      res ← serve req;
      others ← serve_all rest;
      mret (res :: others)
  end.

(** The five requests of the interface. *)
Definition get_all : request :=
  {| method := GET; params_id := NoParam; body := [] |}.
Definition get_one (raw : string) : request :=
  {| method := GET; params_id := RawParam raw; body := [] |}.
Definition post (b : jsobject) : request :=
  {| method := POST; params_id := NoParam; body := b |}.
Definition put (raw : string) (b : jsobject) : request :=
  {| method := PUT; params_id := RawParam raw; body := b |}.
Definition del (raw : string) : request :=
  {| method := DELETE; params_id := RawParam raw; body := [] |}.

Definition ids (c : collection) : list Z := map id (docs c).

Definition empty_collection : collection := {| docs := []; next_oid := 0 |}.

(** ** Vocabulary of the statements *)

(** The document that [insertToDo] writes for a task. *)
Definition document_of (oid : nat) (todo : ToDo.t) : document :=
  {| _id := oid;
     id := ToDo.id todo;
     title := ToDo.title todo;
     completed := ToDo.completed todo |}.

Definition inserted (c : collection) (todo : ToDo.t) : collection :=
  {| docs := docs c ++ [document_of (next_oid c) todo];
     next_oid := S (next_oid c) |}.

Definition updated (c : collection) (key : option Z) (u : update_data)
  : collection :=
  {| docs := fst (updateOne key u (docs c)); next_oid := next_oid c |}.

Definition deleted (c : collection) (key : option Z) : collection :=
  {| docs := fst (deleteOne key (docs c)); next_oid := next_oid c |}.

(** An identifier to which 1 is added exactly: it and its successor are
    doubles. *)
Definition exact_id (i : Z) : Prop := - 2 ^ 53 <= i < 2 ^ 53.

(** A collection whose identifiers are all in that range, and one in
    which they stay there while [k] more are assigned. *)
Definition exact_ids (c : collection) : Prop :=
  Forall (fun d => exact_id (id d)) (docs c).

Definition room_for (k : nat) (c : collection) : Prop :=
  Z.of_nat k <= 2 ^ 53
  /\ Forall (fun d => - 2 ^ 53 <= id d /\ id d + Z.of_nat k <= 2 ^ 53)
            (docs c).

(** The key that a controller method uses for a path identifier: the
    number that [validateId] has stored, parsed again. *)
Definition controller_key (raw : string) : option Z :=
  match parseInt raw with
  | Some n => parseInt_param (NumParam n)
  | None => None
  end.

(** The controller method that a request reaches after [validateId]
    acts on the identifier [tid]. *)
Definition targets (req : request) (tid : Z) : Prop :=
  exists k, parseInt_param (params_id req) = Some k
            /\ parseInt_param (NumParam k) = Some tid.

(** The request as [validateId] passes it on. *)
Definition with_id (req : request) (n : Z) : request :=
  {| method := method req; params_id := NumParam n; body := body req |}.

(** What a route does with a request: it is answered by a validation
    middleware, or it reaches one of the five controller methods. *)
Inductive routed (req : request) : M response -> Prop :=
| routed_invalid_id :
    method req <> POST -> params_id req <> NoParam ->
    parseInt_param (params_id req) = None ->
    routed req (mret (json 400 (ErrorObject ID_numero_valido)))
| routed_invalid_body res :
    method req = POST \/ method req = PUT ->
    validateToDo req = inl res ->
    routed req (mret res)
| routed_getAll :
    method req = GET -> params_id req = NoParam ->
    routed req (ToDoController.getAll req)
| routed_getById n :
    method req = GET -> params_id req <> NoParam ->
    parseInt_param (params_id req) = Some n ->
    routed req (ToDoController.getById (with_id req n))
| routed_create :
    method req = POST -> params_id req = NoParam ->
    validateToDo req = inr req ->
    routed req (ToDoController.create req)
| routed_update n :
    method req = PUT -> params_id req <> NoParam ->
    parseInt_param (params_id req) = Some n ->
    validateToDo req = inr req ->
    routed req (ToDoController.update (with_id req n))
| routed_delete n :
    method req = DELETE -> params_id req <> NoParam ->
    parseInt_param (params_id req) = Some n ->
    routed req (ToDoController.delete (with_id req n)).

(** A request fails validation when its path identifier does not parse
    or when [validateToDo] answers its body. *)
Definition fails_validation (req : request) : Prop :=
  (params_id req <> NoParam /\ parseInt_param (params_id req) = None)
  \/ ((method req = POST \/ method req = PUT)
      /\ exists res, validateToDo req = inl res).

(** ** Failures of the store: try, catch and middlewares/errorHandler.js *)

(** What a store call throws: an error object with its [name], its
    [code] when it has one (a MongoDB server error code) and its
    [message]. *)
Module JsError.
Record t : Type := mk { name : string; code : option Z; message : string }.
End JsError.

(** The bodies that [errorHandler] sends; [Error_de_validacion] is sent
    with the message of the error as [details]. *)
Inductive failure_body : Type :=
| Error_de_validacion (details : string)
| ID_invalido
| Duplicado_detectado
| Error_interno_del_servidor.

Record failure_response : Type :=
  { failure_status : Z; failure_sent : failure_body }.

Definition errorHandler (err : JsError.t) : failure_response :=
  if String.eqb (JsError.name err) "ValidationError" then
    {| failure_status := 400;
       failure_sent := Error_de_validacion (JsError.message err) |}
  else if String.eqb (JsError.name err) "CastError" then
    {| failure_status := 400; failure_sent := ID_invalido |}
  else
    match JsError.code err with
    | Some 11000 =>
        {| failure_status := 409; failure_sent := Duplicado_detectado |}
    | _ =>
        {| failure_status := 500;
           failure_sent := Error_interno_del_servidor |}
    end.

(** Which adapter methods fail during a request, and with what error.
    A controller method calls each adapter method at most once. *)
Definition faults : Type := store_call -> option JsError.t.

Definition no_fault : faults := fun _ => None.

(** A handler whose store may fail: it ends with a value or with the
    error thrown. *)
Definition MF (A : Type) : Type :=
  faults -> collection -> (JsError.t + A) * collection * list store_call.

#[global] Instance MF_ret : MRet MF := fun A a p c => (inr a, c, []).

#[global] Instance MF_bind : MBind MF := fun A B k m p c =>
  let '(r, c1, t1) := m p c in
  match r with
  | inl err => (inl err, c1, t1)
  | inr a =>
      let '(b, c2, t2) := k a p c1 in
      (b, c2, t1 ++ t2)
  end.

(** An adapter method inside its [try]: when the call fails, the
    [catch] logs and rethrows, and the collection is as it was. *)
Definition attempt {A} (call : store_call) (op : M A) : MF A :=
  fun p c =>
    match p call with
    | Some err => (inl err, c, [call])
    | None => let '(a, c', t) := op c in (inr a, c', t)
    end.

(** The controller methods with their [try] blocks. *)
Module Try.

Definition connect : MF unit := attempt Connect MongoConnection.connect.

Definition getAll (req : request) : MF response :=
  connect;;
  todos ← attempt GetAllToDos MongoConnection.getAllToDos;
  mret (json 200 (Documents todos)).

Definition getById (req : request) : MF response :=
  connect;;
  let id := parseInt_param (params_id req) in
  todos ← attempt GetAllToDos MongoConnection.getAllToDos;
  match find_todo id todos with
  | None => mret (json 404 (ErrorObject ToDo_no_encontrado))
  | Some todo => mret (json 200 (Document todo))
  end.

Definition create (req : request) : MF response :=
  connect;;
  if negb (truthy (get_prop (body req) "title")) then
    mret (json 400 (ErrorObject Titulo_requerido))
  else
    todos ← attempt GetAllToDos MongoConnection.getAllToDos;
    let todo := ToDoController.newToDo todos (body req) in
    attempt InsertToDo (MongoConnection.insertToDo todo);;
    mret (json 201 (Properties (ToDo.own_properties todo))).

Definition update (req : request) : MF response :=
  connect;;
  let id := parseInt_param (params_id req) in
  res ← attempt UpdateToDo
          (MongoConnection.updateToDo id
             (ToDoController.updateData (body req)));
  if modifiedCount res =? 0 then
    mret (json 404 (ErrorObject ToDo_no_encontrado))
  else
    todos ← attempt GetAllToDos MongoConnection.getAllToDos;
    match find_todo id todos with
    | Some updatedTodo => mret (json 200 (Document updatedTodo))
    | None => mret (json 200 Undefined)
    end.

Definition delete (req : request) : MF response :=
  connect;;
  let id := parseInt_param (params_id req) in
  res ← attempt DeleteToDo (MongoConnection.deleteToDo id);
  if deletedCount res =? 0 then
    mret (json 404 (ErrorObject ToDo_no_encontrado))
  else
    mret {| status := 204; sent := None |}.

End Try.

(** [catch (error) { next(error) }] followed by [errorHandler], the
    last middleware of the application: the answer of the controller,
    or the answer of [errorHandler] to what was thrown. *)
Definition catch_next (handler : MF response) (p : faults) (c : collection)
  : (failure_response + response) * collection * list store_call :=
  let '(r, c', t) := handler p c in
  (match r with
   | inl err => inl (errorHandler err)
   | inr res => inr res
   end, c', t).

(** The status of an answer, whoever sent it. *)
Definition answer_status (a : failure_response + response) : Z :=
  match a with
  | inl f => failure_status f
  | inr res => status res
  end.

(** The first call of a sequence that fails, with its position. *)
Fixpoint first_fault (p : faults) (t : list store_call)
  : option (nat * JsError.t) :=
  match t with
  | [] => None
  | call :: rest =>
      match p call with
      | Some err => Some (0%nat, err)
      | None =>
          match first_fault p rest with
          | Some (i, e) => Some (S i, e)
          | None => None
          end
      end
  end.

(** The adapter methods that write. *)
Definition mutates (call : store_call) : bool :=
  match call with
  | InsertToDo | UpdateToDo | DeleteToDo => true
  | Connect | GetAllToDos => false
  end.

(** What becomes of a run of a controller method on a reliable store
    when calls may fail: nothing changes if none of its calls fails;
    otherwise the run stops at the first failing call, [errorHandler]
    answers the error, and the collection holds the effect of the run if
    a writing call came before the failing one. *)
Definition outcome_with_faults (p : faults) (c : collection)
  (run : response * collection * list store_call)
  : (failure_response + response) * collection * list store_call :=
  match first_fault p (trace run) with
  | None => (inr (result run), final run, trace run)
  | Some (i, err) =>
      (inl (errorHandler err),
       if existsb mutates (take i (trace run)) then final run else c,
       take (S i) (trace run))
  end.

(** The invariant of the stored fields that the validated routes keep:
    [completed] is a boolean, and a title is a string unless it is one
    of the falsy values [null], [false] and [0]. *)
Definition well_typed (d : document) : Prop :=
  (exists b, completed d = JBool b)
  /\ title d <> JUndefined
  /\ (truthy (title d) = true -> exists s, title d = JStr s).

(** * Properties *)

(** ** JavaScript values *)

Section JSFacts.

Lemma parse_digits_acc_pos (d : Decimal.uint) (p : positive) :
  parse_digits 10 (Some (Z.pos p)) (NilEmpty.string_of_uint d)
  = Some (Z.pos (Pos.of_uint_acc d p)).
Proof.
  revert p.
  induction d; intro p; cbn [NilEmpty.string_of_uint parse_digits Pos.of_uint_acc];
    [reflexivity | ..];
    (change (digit_value 10 _) with (Some 0)
     || change (digit_value 10 _) with (Some 1)
     || change (digit_value 10 _) with (Some 2)
     || change (digit_value 10 _) with (Some 3)
     || change (digit_value 10 _) with (Some 4)
     || change (digit_value 10 _) with (Some 5)
     || change (digit_value 10 _) with (Some 6)
     || change (digit_value 10 _) with (Some 7)
     || change (digit_value 10 _) with (Some 8)
     || change (digit_value 10 _) with (Some 9));
    cbv iota beta; rewrite <- IHd; do 2 f_equal; lia.
Qed.

Lemma parse_digits_acc_zero (d : Decimal.uint) :
  parse_digits 10 (Some 0) (NilEmpty.string_of_uint d)
  = Some (Z.of_N (Pos.of_uint d)).
Proof.
  induction d; cbn [NilEmpty.string_of_uint parse_digits Pos.of_uint];
    [reflexivity | ..];
    try (change (digit_value 10 _) with (Some 0); cbv iota beta;
         exact IHd);
    apply parse_digits_acc_pos.
Qed.

Lemma parse_digits_uint (d : Decimal.uint) :
  d <> Decimal.Nil ->
  parse_digits 10 None (NilEmpty.string_of_uint d)
  = Some (Z.of_N (Pos.of_uint d)).
Proof.
  destruct d; intro Hd; [congruence | ..];
    cbn [NilEmpty.string_of_uint parse_digits Pos.of_uint];
    try (change (digit_value 10 _) with (Some 0); cbv iota beta;
         apply parse_digits_acc_zero);
    apply parse_digits_acc_pos.
Qed.

(** Every integer up to [2^53] in magnitude is a double. *)
Lemma round_double_exact (z : Z) :
  Z.abs z <= 2 ^ 53 -> round_double z = z.
Proof.
  intros Hz. unfold round_double.
  destruct (Z.eq_dec (Z.abs z) (2 ^ 53)) as [Heq | Hne].
  - destruct z as [|q|q]; cbn [Z.abs] in Heq; [discriminate | ..];
      injection Heq as ->; reflexivity.
  - assert (Z.log2 (Z.abs z) - 52 <= 0) as He.
    { destruct (Z.eq_dec (Z.abs z) 0) as [-> | Hz0]; [cbn; lia|].
      assert (Z.log2 (Z.abs z) < 53); [|lia].
      apply Z.log2_lt_pow2; lia. }
    apply Z.leb_le in He. rewrite He. reflexivity.
Qed.

Lemma parseInt_uint (d : Decimal.uint) :
  d <> Decimal.Nil ->
  parseInt (NilEmpty.string_of_uint d)
  = Some (round_double (Z.of_N (Pos.of_uint d))).
Proof.
  intro Hd.
  assert (Hp := parse_digits_uint d Hd).
  unfold parseInt.
  destruct d as [|d|d|d|d|d|d|d|d|d|d]; [congruence | ..];
    try (destruct d);
    cbn [NilEmpty.string_of_uint skip_white_space] in *;
    match goal with
    | |- context [is_white_space ?c] =>
        change (is_white_space c) with false; cbv iota beta
    end;
    rewrite Hp; do 2 f_equal; lia.
Qed.

Lemma parseInt_minus_uint (d : Decimal.uint) :
  d <> Decimal.Nil ->
  parseInt (String "-" (NilEmpty.string_of_uint d))
  = Some (round_double (- Z.of_N (Pos.of_uint d))).
Proof.
  intro Hd.
  assert (Hp := parse_digits_uint d Hd).
  unfold parseInt.
  cbn [skip_white_space].
  change (is_white_space "-") with false; cbv iota beta.
  destruct d as [|d|d|d|d|d|d|d|d|d|d]; [congruence | ..];
    try (destruct d);
    cbn [NilEmpty.string_of_uint] in *;
    rewrite Hp; do 2 f_equal; lia.
Qed.

(** Reading the decimal digits of an integer gives its nearest double. *)
Lemma parseInt_decimal (n : Z) :
  parseInt (decimal n) = Some (round_double n).
Proof.
  destruct n as [|p|p]; [reflexivity | ..];
    unfold decimal, Z.to_int, NilZero.string_of_int,
      NilZero.string_of_uint;
    pose proof (DecimalPos.Unsigned.to_uint_nonnil p) as Hnil;
    pose proof (DecimalPos.Unsigned.of_to p) as Hof;
    destruct (Pos.to_uint p) eqn:Hd; try congruence; rewrite <- Hd in *.
  all: first
    [ rewrite parseInt_uint by assumption; rewrite Hof; reflexivity
    | rewrite parseInt_minus_uint by assumption; rewrite Hof; reflexivity ].
Qed.

(** Up to [2^53], reading back the string of a number gives the
    number. *)
Lemma parseInt_number_to_string (n : Z) :
  Z.abs n <= 2 ^ 53 -> parseInt (number_to_string n) = Some n.
Proof.
  intros Hn. unfold number_to_string.
  destruct (n =? 0) eqn:H0; [apply Z.eqb_eq in H0; subst; reflexivity|].
  apply Z.eqb_neq in H0.
  assert ((Z.abs n <=? 2 ^ 53) = true) as -> by (apply Z.leb_le; exact Hn).
  destruct (n <? 0) eqn:Hneg.
  - apply Z.ltb_lt in Hneg.
    assert (("-" ++ decimal (Z.abs n))%string = decimal n) as ->
      by (destruct n as [|p|p]; try lia; reflexivity).
    rewrite parseInt_decimal, round_double_exact by exact Hn. reflexivity.
  - apply Z.ltb_ge in Hneg. rewrite Z.abs_eq by exact Hneg.
    rewrite parseInt_decimal, round_double_exact; [reflexivity|].
    rewrite Z.abs_eq in Hn by exact Hneg. rewrite Z.abs_eq by exact Hneg.
    exact Hn.
Qed.

Lemma jsval_eqb_refl : forall v : jsval, jsval_eqb v v = true.
Proof.
  fix IH 1.
  intros [ | | b | n | s | items | fields]; simpl; try reflexivity.
  - apply eqb_reflx.
  - apply Z.eqb_refl.
  - apply String.eqb_refl.
  - induction items as [|x r IHr]; [reflexivity|].
    rewrite (IH x), IHr. reflexivity.
  - induction fields as [|[k x] r IHr]; [reflexivity|].
    rewrite String.eqb_refl, (IH x), IHr. reflexivity.
Qed.

Lemma jsval_eqb_eq : forall a b : jsval, jsval_eqb a b = true -> a = b.
Proof.
  fix IH 1.
  intros [ | | x | x | x | x | x] [ | | y | y | y | y | y]; simpl;
    try discriminate; try reflexivity.
  - intros H. apply eqb_prop in H. congruence.
  - intros H. apply Z.eqb_eq in H. congruence.
  - intros H. apply String.eqb_eq in H. congruence.
  - intros H. f_equal. revert y H.
    induction x as [|a r IHr]; intros [|b r'] H; try discriminate;
      [reflexivity|].
    apply andb_true_iff in H as [H1 H2].
    f_equal; [apply IH, H1 | apply IHr, H2].
  - intros H. f_equal. revert y H.
    induction x as [|[k a] r IHr]; intros [|[k' b] r'] H; try discriminate;
      [reflexivity|].
    apply andb_true_iff in H as [H12 H3].
    apply andb_true_iff in H12 as [H1 H2].
    apply String.eqb_eq in H1.
    f_equal; [f_equal; [exact H1 | apply IH, H2] | apply IHr, H3].
Qed.

Lemma document_eqb_refl (d : document) : document_eqb d d = true.
Proof.
  unfold document_eqb.
  rewrite Nat.eqb_refl, Z.eqb_refl, !jsval_eqb_refl. reflexivity.
Qed.

Lemma document_eqb_eq (a b : document) : document_eqb a b = true -> a = b.
Proof.
  unfold document_eqb. intros H.
  repeat (apply andb_true_iff in H as [H ?]).
  apply Nat.eqb_eq in H. destruct a, b; simpl in *.
  f_equal; [assumption | lia | apply jsval_eqb_eq; assumption ..].
Qed.

End JSFacts.

(** ** The document collection *)

Section Store.

Implicit Types (key : option Z) (u : update_data) (d : document)
  (l : list document).

Lemma find_todo_nil key : find_todo key [] = None.
Proof. reflexivity. Qed.

Lemma find_todo_cons key d l :
  find_todo key (d :: l)
  = if decide (matches_id key d) then Some d else find_todo key l.
Proof.
  unfold find_todo. cbn [list_find].
  case_decide; [reflexivity|].
  destruct (list_find (matches_id key) l) as [[i x]|]; reflexivity.
Qed.

Lemma updateOne_cons key u d l :
  updateOne key u (d :: l)
  = if decide (matches_id key d)
    then (apply_set u d :: l,
          {| matchedCount := 1;
             modifiedCount :=
               if document_eqb d (apply_set u d) then 0 else 1 |})
    else (d :: fst (updateOne key u l), snd (updateOne key u l)).
Proof.
  unfold updateOne. cbn [list_find].
  case_decide; [reflexivity|].
  destruct (list_find (matches_id key) l) as [[i x]|]; reflexivity.
Qed.

Lemma deleteOne_cons key d l :
  deleteOne key (d :: l)
  = if decide (matches_id key d)
    then (l, {| deletedCount := 1 |})
    else (d :: fst (deleteOne key l), snd (deleteOne key l)).
Proof.
  unfold deleteOne. cbn [list_find].
  case_decide; [reflexivity|].
  destruct (list_find (matches_id key) l) as [[i x]|]; reflexivity.
Qed.

(** *** Array.prototype.find *)

Lemma find_todo_Some key l d :
  find_todo key l = Some d -> d ∈ l /\ key = Some (id d).
Proof.
  induction l as [|x l IH]; [discriminate|].
  rewrite find_todo_cons. case_decide as Hx.
  - intros [= <-]. split; [left | exact Hx].
  - intros H. destruct (IH H). split; [right|]; assumption.
Qed.

Lemma find_todo_None key l :
  find_todo key l = None <-> forall d, d ∈ l -> key <> Some (id d).
Proof.
  induction l as [|x l IH].
  - split; [intros _ d Hd; inversion Hd | reflexivity].
  - rewrite find_todo_cons. case_decide as Hx.
    + split; [discriminate|]. intros H. destruct (H x); [left | exact Hx].
    + rewrite IH. split.
      * intros H d Hd. inversion Hd; subst; [exact Hx | apply H; assumption].
      * intros H d Hd. apply H. right. assumption.
Qed.

(** The first listed match: no earlier document has the identifier. *)
Lemma find_todo_first key l d :
  find_todo key l = Some d <->
  exists i, l !! i = Some d /\ key = Some (id d)
            /\ forall j x, l !! j = Some x -> (j < i)%nat -> key <> Some (id x).
Proof.
  unfold find_todo. split.
  - destruct (list_find (matches_id key) l) as [[i x]|] eqn:Hf; [|discriminate].
    intros [= <-]. apply list_find_Some in Hf as (Hi & Hx & Hlt).
    exists i. repeat split; [assumption .. |].
    intros j y Hj Hji. exact (Hlt j y Hj Hji).
  - intros (i & Hi & Hd & Hlt).
    assert (list_find (matches_id key) l = Some (i, d)) as ->; [|reflexivity].
    apply list_find_Some. repeat split; [assumption .. |].
    intros j y Hj Hji. exact (Hlt j y Hj Hji).
Qed.

(** With distinct identifiers a listed document is the one found. *)
Lemma find_todo_unique l d :
  NoDup (map id l) -> d ∈ l -> find_todo (Some (id d)) l = Some d.
Proof.
  induction l as [|x l IH]; intros Hnd Hd; [inversion Hd|].
  rewrite find_todo_cons. cbn [map] in Hnd. apply NoDup_cons in Hnd as [Hx Hnd].
  inversion Hd; subst.
  - rewrite decide_True; reflexivity.
  - rewrite decide_False; [apply IH; assumption|].
    unfold matches_id. intros [= Heq]. apply Hx. rewrite <- Heq.
    apply list_elem_of_fmap. exists d. split; [reflexivity | assumption].
Qed.

Lemma find_todo_app_new key l d :
  (forall x, x ∈ l -> id x <> id d) ->
  find_todo key (l ++ [d])
  = if decide (matches_id key d) then Some d else find_todo key l.
Proof.
  induction l as [|x l IH]; intros Hfresh.
  - cbn [app]. rewrite find_todo_cons, find_todo_nil.
    case_decide; reflexivity.
  - cbn [app]. rewrite !find_todo_cons.
    destruct (decide (matches_id key x)) as [Hx|Hx].
    + rewrite decide_False; [reflexivity|].
      unfold matches_id in *. intros Hd. apply (Hfresh x); [left|congruence].
    + apply IH. intros y Hy. apply Hfresh. right. assumption.
Qed.

(** Documents listed after a match do not change what is found. *)
Lemma find_todo_app key l l' d :
  find_todo key l = Some d -> find_todo key (l ++ l') = Some d.
Proof.
  induction l as [|x l IH]; [discriminate|].
  cbn [app]. rewrite !find_todo_cons. case_decide; [auto | exact IH].
Qed.

(** *** updateOne *)

Lemma apply_set_id u d : id (apply_set u d) = id d.
Proof. reflexivity. Qed.

Lemma updateOne_ids key u l : map id (fst (updateOne key u l)) = map id l.
Proof.
  induction l as [|x l IH]; [reflexivity|].
  rewrite updateOne_cons. case_decide; cbn [fst map]; [reflexivity|].
  rewrite IH. reflexivity.
Qed.

Lemma updateOne_length key u l :
  length (fst (updateOne key u l)) = length l.
Proof.
  rewrite <- (length_map id), updateOne_ids. apply length_map.
Qed.

(** Every position keeps its document, except the position of the first
    match, which receives the fields of [u]. *)
Lemma updateOne_lookup key u l i d :
  l !! i = Some d ->
  fst (updateOne key u l) !! i = Some d
  \/ (fst (updateOne key u l) !! i = Some (apply_set u d)
      /\ find_todo key l = Some d).
Proof.
  revert i. induction l as [|x l IH]; intros i Hi; [discriminate|].
  rewrite updateOne_cons, find_todo_cons.
  case_decide as Hx; cbn [fst].
  - destruct i as [|i]; cbn in *; [right | left; assumption].
    injection Hi as <-. split; reflexivity.
  - destruct i as [|i]; cbn in *; [left; assumption|].
    apply IH. assumption.
Qed.

Lemma updateOne_found key u l d :
  find_todo key l = Some d ->
  find_todo key (fst (updateOne key u l)) = Some (apply_set u d)
  /\ modifiedCount (snd (updateOne key u l))
     = (if document_eqb d (apply_set u d) then 0 else 1).
Proof.
  induction l as [|x l IH]; [discriminate|].
  rewrite updateOne_cons, find_todo_cons.
  case_decide as Hx; cbn [fst snd].
  - intros [= <-]. rewrite find_todo_cons, decide_True; [split; reflexivity|].
    exact Hx.
  - intros H. rewrite find_todo_cons, decide_False by exact Hx.
    apply IH. assumption.
Qed.

Lemma updateOne_missing key u l :
  find_todo key l = None ->
  updateOne key u l = (l, {| matchedCount := 0; modifiedCount := 0 |}).
Proof.
  unfold find_todo, updateOne.
  destruct (list_find (matches_id key) l) as [[i x]|]; [discriminate|].
  reflexivity.
Qed.

Lemma updateOne_other key key' u l :
  key' <> key ->
  find_todo key' (fst (updateOne key u l)) = find_todo key' l.
Proof.
  intros Hne. induction l as [|x l IH]; [reflexivity|].
  rewrite updateOne_cons. case_decide as Hx; cbn [fst].
  - rewrite !find_todo_cons. unfold matches_id in *.
    change (id (apply_set u x)) with (id x).
    rewrite !decide_False; [reflexivity | congruence ..].
  - rewrite !find_todo_cons. unfold matches_id in *.
    case_decide; [reflexivity | exact IH].
Qed.

(** A modified-count of zero leaves the collection as it was. *)
Lemma updateOne_unmodified key u l :
  modifiedCount (snd (updateOne key u l)) = 0 ->
  fst (updateOne key u l) = l.
Proof.
  induction l as [|x l IH]; [reflexivity|].
  rewrite updateOne_cons. case_decide as Hx; cbn [fst snd modifiedCount].
  - destruct (document_eqb x (apply_set u x)) eqn:Heq; [|discriminate].
    intros _. apply document_eqb_eq in Heq. congruence.
  - intros H. rewrite IH by assumption. reflexivity.
Qed.

Lemma updateOne_modified key u l :
  modifiedCount (snd (updateOne key u l)) <> 0 ->
  exists d, find_todo key l = Some d
            /\ find_todo key (fst (updateOne key u l)) = Some (apply_set u d)
            /\ apply_set u d <> d.
Proof.
  intros Hm. destruct (find_todo key l) as [d|] eqn:Hf.
  - exists d. destruct (updateOne_found key u l d Hf) as [Hfound Hcount].
    repeat split; [assumption|].
    intros Heq. apply Hm. rewrite Hcount, Heq, document_eqb_refl. reflexivity.
  - rewrite updateOne_missing in Hm by assumption. contradiction.
Qed.

(** *** deleteOne *)

Lemma deleteOne_sublist key l : sublist (fst (deleteOne key l)) l.
Proof.
  induction l as [|x l IH]; [constructor|].
  rewrite deleteOne_cons. case_decide; cbn [fst].
  - apply sublist_cons. reflexivity.
  - apply sublist_skip. exact IH.
Qed.

Lemma deleteOne_count key l :
  deletedCount (snd (deleteOne key l))
  = match find_todo key l with Some _ => 1 | None => 0 end.
Proof.
  unfold find_todo, deleteOne.
  destruct (list_find (matches_id key) l) as [[i x]|]; reflexivity.
Qed.

Lemma deleteOne_missing key l :
  find_todo key l = None -> fst (deleteOne key l) = l.
Proof.
  unfold find_todo, deleteOne.
  destruct (list_find (matches_id key) l) as [[i x]|]; [discriminate|].
  reflexivity.
Qed.

Lemma deleteOne_other key key' l :
  key' <> key ->
  find_todo key' (fst (deleteOne key l)) = find_todo key' l.
Proof.
  intros Hne. induction l as [|x l IH]; [reflexivity|].
  rewrite deleteOne_cons. case_decide as Hx; cbn [fst].
  - rewrite find_todo_cons. unfold matches_id in *.
    rewrite decide_False; [reflexivity | congruence].
  - rewrite !find_todo_cons. case_decide; [reflexivity | exact IH].
Qed.

(** With distinct identifiers, nothing is left under a deleted one. *)
Lemma deleteOne_gone key l :
  NoDup (map id l) -> find_todo key (fst (deleteOne key l)) = None.
Proof.
  induction l as [|x l IH]; intros Hnd; [reflexivity|].
  cbn [map] in Hnd. apply NoDup_cons in Hnd as [Hx Hnd].
  rewrite deleteOne_cons. case_decide as Hm; cbn [fst].
  - apply find_todo_None. intros d Hd Hkey. apply Hx.
    unfold matches_id in Hm. rewrite Hm in Hkey. injection Hkey as ->.
    apply list_elem_of_fmap. exists d. split; [reflexivity | assumption].
  - rewrite find_todo_cons, decide_False by exact Hm. apply IH. assumption.
Qed.

Lemma NoDup_ids_sublist l l' :
  sublist l' l -> NoDup (map id l) -> NoDup (map id l').
Proof.
  intros Hsub Hnd. apply (sublist_NoDup _ (map id l)); [exact Hnd|].
  apply (fmap_sublist id). exact Hsub.
Qed.

End Store.

(** ** Identifier assignment *)

Section NewId.

Import ToDoController.

Lemma Math_max_le (x : Z) (xs : list Z) :
  x <= Math_max x xs /\ forall y, y ∈ xs -> y <= Math_max x xs.
Proof.
  unfold Math_max. revert x.
  induction xs as [|z xs IH]; intros x; cbn [fold_left].
  - split; [lia | intros y Hy; inversion Hy].
  - destruct (IH (Z.max x z)) as [H1 H2]. split; [lia|].
    intros y Hy. inversion Hy; subst; [lia | apply H2; assumption].
Qed.

Lemma Math_max_elem (x : Z) (xs : list Z) : Math_max x xs ∈ x :: xs.
Proof.
  unfold Math_max. revert x.
  induction xs as [|z xs IH]; intros x; cbn [fold_left]; [left|].
  specialize (IH (Z.max x z)).
  apply elem_of_cons in IH as [-> | Hin].
  - destruct (Z.max_spec x z) as [[_ ->] | [_ ->]]; [right; left | left].
  - right. right. assumption.
Qed.

Lemma newId_empty : newId [] = 1.
Proof. reflexivity. Qed.

(** As long as the listed identifiers are in the exact range, the new
    identifier is the greatest plus one. *)
Lemma newId_exact (x : document) (l : list document) :
  Forall (fun d => exact_id (id d)) (x :: l) ->
  newId (x :: l) = Math_max (id x) (map id l) + 1
  /\ exact_id (Math_max (id x) (map id l)).
Proof.
  intros Hall. unfold newId, number_add. cbn [map].
  assert (exact_id (Math_max (id x) (map id l))) as Hmax.
  { pose proof (Math_max_elem (id x) (map id l)) as Hin.
    change (id x :: map id l) with (map id (x :: l)) in Hin.
    apply list_elem_of_fmap in Hin as (d & -> & Hd).
    rewrite Forall_forall in Hall. apply Hall, Hd. }
  split; [|exact Hmax].
  apply round_double_exact. unfold exact_id in Hmax. lia.
Qed.

(** The new identifier is above every listed one. *)
Lemma newId_above (l : list document) (d : document) :
  Forall (fun d => exact_id (id d)) l ->
  d ∈ l -> id d < newId l.
Proof.
  intros Hall Hd. destruct l as [|x l]; [inversion Hd|].
  destruct (newId_exact x l Hall) as [-> _].
  destruct (Math_max_le (id x) (map id l)) as [H1 H2].
  apply elem_of_cons in Hd as [-> | Hd]; [lia|].
  assert (id d <= Math_max (id x) (map id l)); [|lia].
  apply H2. apply list_elem_of_fmap. exists d. split; [reflexivity | exact Hd].
Qed.

(** On a collection that lists a task, the new identifier is one more
    than a listed one, the greatest by [newId_above]. *)
Lemma newId_succ_of_listed (l : list document) :
  Forall (fun d => exact_id (id d)) l ->
  l <> [] -> exists d, d ∈ l /\ newId l = id d + 1.
Proof.
  intros Hall Hne. destruct l as [|x l]; [congruence|].
  destruct (newId_exact x l Hall) as [-> _].
  pose proof (Math_max_elem (id x) (map id l)) as Hin.
  change (id x :: map id l) with (map id (x :: l)) in Hin.
  apply list_elem_of_fmap in Hin as (d & Heq & Hd).
  exists d. split; [assumption | lia].
Qed.

Lemma newId_fresh (l : list document) (d : document) :
  Forall (fun d => exact_id (id d)) l ->
  d ∈ l -> id d <> newId l.
Proof. intros Hall Hd. pose proof (newId_above l d Hall Hd). lia. Qed.

(** With room for [k + 1] identifiers, the new one leaves room for [k]. *)
Lemma newId_room (l : list document) (k : Z) :
  0 <= k -> k + 1 <= 2 ^ 53 ->
  Forall (fun d => - 2 ^ 53 <= id d /\ id d + (k + 1) <= 2 ^ 53) l ->
  - 2 ^ 53 <= newId l /\ newId l + k <= 2 ^ 53.
Proof.
  intros Hk Hroom Hall. destruct l as [|x l]; [rewrite newId_empty; lia|].
  assert (Forall (fun d => exact_id (id d)) (x :: l)) as Hexact.
  { eapply Forall_impl; [exact Hall|]. intros d Hd. cbv beta in Hd.
    unfold exact_id. lia. }
  destruct (newId_exact x l Hexact) as [-> _].
  pose proof (Math_max_elem (id x) (map id l)) as Hin.
  change (id x :: map id l) with (map id (x :: l)) in Hin.
  apply list_elem_of_fmap in Hin as (d & -> & Hd).
  rewrite Forall_forall in Hall. specialize (Hall d Hd). cbv beta in Hall.
  lia.
Qed.

Lemma StronglySorted_lt_NoDup (l : list Z) :
  StronglySorted Z.lt l -> NoDup l.
Proof.
  induction 1 as [|x l Hs IH Hall]; [constructor|].
  apply NoDup_cons. split; [|exact IH].
  intros Hin. rewrite Forall_forall in Hall. specialize (Hall x Hin). lia.
Qed.

End NewId.

(** ** The validation middlewares *)

Section Validation.

Lemma validateToDo_next (req req' : request) :
  validateToDo req = inr req' -> req' = req.
Proof.
  unfold validateToDo.
  repeat match goal with |- context [if ?b then _ else _] => destruct b end;
    congruence.
Qed.

(** Every answer of [validateToDo] is a 400. *)
Lemma validateToDo_answer (req : request) (res : response) :
  validateToDo req = inl res -> exists m, res = json 400 (ErrorObject m).
Proof.
  unfold validateToDo.
  repeat match goal with |- context [if ?b then _ else _] => destruct b end;
    intros [= <-]; eexists; reflexivity.
Qed.

(** The body is inspected, not the path. *)
Lemma validateToDo_params (req : request) (p : param) :
  validateToDo {| method := method req; params_id := p; body := body req |}
  = match validateToDo req with
    | inl res => inl res
    | inr _ =>
        inr {| method := method req; params_id := p; body := body req |}
    end.
Proof.
  unfold validateToDo. cbn [method body].
  repeat match goal with |- context [if ?b then _ else _] => destruct b end;
    reflexivity.
Qed.

(** A creation request that passes has a non-empty string as title and,
    when [completed] is given, a boolean. *)
Lemma validateToDo_post (req req' : request) :
  method req = POST ->
  validateToDo req = inr req' ->
  (exists s, get_prop (body req) "title" = JStr s /\ s <> ""%string)
  /\ (get_prop (body req) "completed" = JUndefined
      \/ exists b, get_prop (body req) "completed" = JBool b).
Proof.
  unfold validateToDo. intros ->. cbn [http_method_eqb andb].
  destruct (get_prop (body req) "title") as [ | | b | n | s | | ] eqn:Ht;
    cbn [truthy negb typeof jstype_eqb andb];
    try discriminate;
    try (destruct b; discriminate);
    try (destruct (n =? 0); discriminate).
  destruct (String.eqb s "") eqn:Hs; cbn [negb]; [discriminate|].
  apply String.eqb_neq in Hs.
  destruct (get_prop (body req) "completed") as [ | | b | n | s' | | ];
    cbn [is_defined typeof jstype_eqb negb andb]; try discriminate;
    intros _; (split; [exists s; split; [reflexivity | assumption] | ]);
    [left; reflexivity | right; eexists; reflexivity].
Qed.

Lemma validateId_spec (req : request) :
  validateId req
  = match parseInt_param (params_id req) with
    | Some n =>
        inr {| method := method req; params_id := NumParam n;
               body := body req |}
    | None => inl (json 400 (ErrorObject ID_numero_valido))
    end.
Proof. unfold validateId. destruct (parseInt_param _); reflexivity. Qed.

(** Up to [2^53] the controller reads back the number that
    [validateId] has stored. *)
Lemma parseInt_param_num (n : Z) :
  Z.abs n <= 2 ^ 53 -> parseInt_param (NumParam n) = Some n.
Proof. apply parseInt_number_to_string. Qed.

Lemma controller_key_exact (raw : string) (n : Z) :
  parseInt raw = Some n -> Z.abs n <= 2 ^ 53 ->
  controller_key raw = Some n.
Proof.
  intros Hn Hb. unfold controller_key. rewrite Hn.
  apply parseInt_param_num, Hb.
Qed.

End Validation.

(** ** The controller, operation by operation *)

Section Controller.

Import ToDoController.

Lemma getAll_eq (req : request) (c : collection) :
  getAll req c = (json 200 (Documents (docs c)), c, [Connect; GetAllToDos]).
Proof. reflexivity. Qed.

Lemma getById_eq (req : request) (c : collection) :
  getById req c
  = (match find_todo (parseInt_param (params_id req)) (docs c) with
     | Some todo => json 200 (Document todo)
     | None => json 404 (ErrorObject ToDo_no_encontrado)
     end, c, [Connect; GetAllToDos]).
Proof.
  unfold getById, mbind, M_bind, connect, MongoConnection.connect,
    MongoConnection.getAllToDos.
  destruct (find_todo _ (docs c)); reflexivity.
Qed.

Lemma create_accepted (req : request) (c : collection) :
  truthy (get_prop (body req) "title") = true ->
  create req c
  = (json 201 (Properties []),
     inserted c (newToDo (docs c) (body req)),
     [Connect; GetAllToDos; InsertToDo]).
Proof.
  intros Ht. unfold create, mbind, M_bind, connect, MongoConnection.connect.
  rewrite Ht. reflexivity.
Qed.

Lemma create_rejected (req : request) (c : collection) :
  truthy (get_prop (body req) "title") = false ->
  create req c = (json 400 (ErrorObject Titulo_requerido), c, [Connect]).
Proof.
  intros Ht. unfold create, mbind, M_bind, connect, MongoConnection.connect.
  rewrite Ht. reflexivity.
Qed.

Lemma updateToDo_eq (key : option Z) (u : update_data) (c : collection) :
  MongoConnection.updateToDo key u c
  = (snd (updateOne key u (docs c)), updated c key u, [UpdateToDo]).
Proof.
  unfold MongoConnection.updateToDo, updated.
  destruct (updateOne key u (docs c)); reflexivity.
Qed.

Lemma update_eq (req : request) (c : collection) :
  let key := parseInt_param (params_id req) in
  let u := updateData (body req) in
  update req c
  = if modifiedCount (snd (updateOne key u (docs c))) =? 0
    then (json 404 (ErrorObject ToDo_no_encontrado), updated c key u,
          [Connect; UpdateToDo])
    else (match find_todo key (docs (updated c key u)) with
          | Some updatedTodo => json 200 (Document updatedTodo)
          | None => json 200 Undefined
          end, updated c key u, [Connect; UpdateToDo; GetAllToDos]).
Proof.
  intros key u.
  unfold update, mbind, M_bind, connect, MongoConnection.connect.
  fold key u. rewrite updateToDo_eq.
  destruct (modifiedCount _ =? 0); [reflexivity|].
  unfold MongoConnection.getAllToDos.
  destruct (find_todo key _); reflexivity.
Qed.

Lemma deleteToDo_eq (key : option Z) (c : collection) :
  MongoConnection.deleteToDo key c
  = (snd (deleteOne key (docs c)), deleted c key, [DeleteToDo]).
Proof.
  unfold MongoConnection.deleteToDo, deleted.
  destruct (deleteOne key (docs c)); reflexivity.
Qed.

Lemma delete_eq (req : request) (c : collection) :
  let key := parseInt_param (params_id req) in
  delete req c
  = (if deletedCount (snd (deleteOne key (docs c))) =? 0
     then json 404 (ErrorObject ToDo_no_encontrado)
     else {| status := 204; sent := None |},
     deleted c key, [Connect; DeleteToDo]).
Proof.
  intros key.
  unfold delete, mbind, M_bind, connect, MongoConnection.connect.
  fold key. rewrite deleteToDo_eq.
  destruct (deletedCount _ =? 0); reflexivity.
Qed.

End Controller.

(** ** The router *)

Section Router.

Import ToDoController.

Lemma serve_routed (req : request) (handler : M response) (c : collection) :
  router req = Some handler ->
  serve req c
  = (Some (result (handler c)), final (handler c), trace (handler c)).
Proof.
  intros Hr. unfold serve. rewrite Hr.
  unfold mbind, M_bind, mret, M_ret, result, final, trace.
  destruct (handler c) as [[res c'] t]. cbn. rewrite app_nil_r. reflexivity.
Qed.

Lemma serve_unrouted (req : request) (c : collection) :
  router req = None -> serve req c = (None, c, []).
Proof. intros Hr. unfold serve. rewrite Hr. reflexivity. Qed.

Lemma router_routed (req : request) (handler : M response) :
  router req = Some handler -> routed req handler.
Proof.
  unfold router.
  destruct req as [m p b]; cbn [method params_id].
  assert (forall q, q <> NoParam ->
            routed {| method := PUT; params_id := q; body := b |}
              (through [validateId; validateToDo] update
                 {| method := PUT; params_id := q; body := b |})) as Hput.
  { intros q Hq. cbn [through]. rewrite validateId_spec.
    cbn [params_id method body].
    destruct (parseInt_param q) as [n|] eqn:Hn.
    - pose proof (validateToDo_params
                    {| method := PUT; params_id := q; body := b |}
                    (NumParam n)) as Hp.
      cbn [method body] in Hp. rewrite Hp.
      destruct (validateToDo {| method := PUT; params_id := q; body := b |})
        as [res|req'] eqn:Hv.
      + apply routed_invalid_body; [right; reflexivity | assumption].
      + pose proof (validateToDo_next _ _ Hv) as ->.
        apply (routed_update {| method := PUT; params_id := q; body := b |} n);
        cbn; done.
    - apply routed_invalid_id; cbn; done. }
  assert (forall q, q <> NoParam ->
            routed {| method := GET; params_id := q; body := b |}
              (through [validateId] getById
                 {| method := GET; params_id := q; body := b |})) as Hget.
  { intros q Hq. cbn [through]. rewrite validateId_spec.
    cbn [params_id method body].
    destruct (parseInt_param q) as [n|] eqn:Hn.
    - apply (routed_getById {| method := GET; params_id := q; body := b |} n);
        cbn; done.
    - apply routed_invalid_id; cbn; done. }
  assert (forall q, q <> NoParam ->
            routed {| method := DELETE; params_id := q; body := b |}
              (through [validateId] delete
                 {| method := DELETE; params_id := q; body := b |})) as Hdel.
  { intros q Hq. cbn [through]. rewrite validateId_spec.
    cbn [params_id method body].
    destruct (parseInt_param q) as [n|] eqn:Hn.
    - apply (routed_delete {| method := DELETE; params_id := q; body := b |} n);
        cbn; done.
    - apply routed_invalid_id; cbn; done. }
  destruct m, p as [|raw|k]; intros [= <-];
    try (apply Hput; discriminate);
    try (apply Hget; discriminate);
    try (apply Hdel; discriminate).
  - apply routed_getAll; reflexivity.
  - cbn [through].
    destruct (validateToDo _) as [res|req'] eqn:Hv.
    + apply routed_invalid_body; [left; reflexivity | assumption].
    + pose proof (validateToDo_next _ _ Hv) as ->.
      apply routed_create; [reflexivity .. | assumption].
Qed.

Lemma routed_400 (req : request) (handler : M response) (c : collection) :
  routed req handler ->
  status (result (handler c)) = 400 ->
  handler c = (result (handler c), c, []) /\ fails_validation req.
Proof.
  intros Hr. destruct Hr as [Hm Hp Hn | res Hm Hv | | n | Hm Hp Hv | n | n].
  - intros _. split; [reflexivity | left; split; assumption].
  - intros _. split; [reflexivity | right; split; [assumption | eauto]].
  - rewrite getAll_eq. cbn. lia.
  - rewrite getById_eq. destruct (find_todo _ _); cbn; lia.
  - destruct (validateToDo_post req req Hm Hv) as [(s & Hs & Hne) _].
    rewrite create_accepted; [cbn; lia|].
    rewrite Hs. cbn. apply String.eqb_neq in Hne. rewrite Hne. reflexivity.
  - pose proof (update_eq (with_id req n) c) as Hu. cbv zeta in Hu.
    rewrite Hu. destruct (modifiedCount _ =? 0); [cbn; lia|].
    destruct (find_todo _ _); cbn; lia.
  - pose proof (delete_eq (with_id req n) c) as Hd. cbv zeta in Hd.
    rewrite Hd. destruct (deletedCount _ =? 0); cbn; lia.
Qed.

Lemma routed_fails (req : request) (handler : M response) (c : collection) :
  routed req handler ->
  fails_validation req ->
  status (result (handler c)) = 400.
Proof.
  intros Hr Hf.
  destruct Hr as [Hm Hp Hn | res Hm Hv | Hm Hp | n Hm Hp Hn | Hm Hp Hv
                 | n Hm Hp Hn Hv | n Hm Hp Hn].
  - reflexivity.
  - destruct (validateToDo_answer _ _ Hv) as [m ->]. reflexivity.
  - destruct Hf as [[Hp' _] | [[Hm' | Hm'] _]]; congruence.
  - destruct Hf as [[_ Hn'] | [[Hm' | Hm'] _]]; congruence.
  - destruct Hf as [[Hp' _] | [_ [res Hres]]]; congruence.
  - destruct Hf as [[_ Hn'] | [_ [res Hres]]]; congruence.
  - destruct Hf as [[_ Hn'] | [[Hm' | Hm'] _]]; congruence.
Qed.

Lemma serve_GET_id (b : jsobject) (raw : string) (n : Z) (c : collection) :
  parseInt raw = Some n ->
  serve {| method := GET; params_id := RawParam raw; body := b |} c
  = (Some (match find_todo (parseInt_param (NumParam n)) (docs c) with
           | Some todo => json 200 (Document todo)
           | None => json 404 (ErrorObject ToDo_no_encontrado)
           end), c, [Connect; GetAllToDos]).
Proof.
  intros Hn.
  rewrite (serve_routed _ (getById
    {| method := GET; params_id := NumParam n; body := b |})).
  - rewrite getById_eq. reflexivity.
  - unfold router. cbn [method params_id through].
    rewrite validateId_spec. cbn [params_id parseInt_param method body].
    rewrite Hn. reflexivity.
Qed.

Lemma serve_DELETE_id (b : jsobject) (raw : string) (n : Z) (c : collection) :
  parseInt raw = Some n ->
  let key := parseInt_param (NumParam n) in
  serve {| method := DELETE; params_id := RawParam raw; body := b |} c
  = (Some (if deletedCount (snd (deleteOne key (docs c))) =? 0
           then json 404 (ErrorObject ToDo_no_encontrado)
           else {| status := 204; sent := None |}),
     deleted c key, [Connect; DeleteToDo]).
Proof.
  intros Hn key.
  rewrite (serve_routed _ (delete
    {| method := DELETE; params_id := NumParam n; body := b |})).
  - pose proof (delete_eq
      {| method := DELETE; params_id := NumParam n; body := b |} c) as Hd.
    cbv zeta in Hd. rewrite Hd. reflexivity.
  - unfold router. cbn [method params_id through].
    rewrite validateId_spec. cbn [params_id parseInt_param method body].
    rewrite Hn. reflexivity.
Qed.

Lemma serve_POST (b : jsobject) (c : collection) :
  validateToDo (post b) = inr (post b) ->
  serve (post b) c
  = (Some (json 201 (Properties [])),
     inserted c (newToDo (docs c) b),
     [Connect; GetAllToDos; InsertToDo]).
Proof.
  intros Hv.
  rewrite (serve_routed _ (create (post b))).
  - destruct (validateToDo_post (post b) _ eq_refl Hv) as [(s & Hs & Hne) _].
    cbn [post body] in Hs.
    rewrite create_accepted; [reflexivity|].
    cbn [post body]. rewrite Hs. cbn.
    apply String.eqb_neq in Hne. rewrite Hne. reflexivity.
  - unfold router. cbn [post method params_id through].
    fold (post b). rewrite Hv. reflexivity.
Qed.

Lemma serve_PUT (b : jsobject) (raw : string) (n : Z) (c : collection) :
  parseInt raw = Some n ->
  validateToDo (put raw b) = inr (put raw b) ->
  serve (put raw b) c
  = (Some (result (update (with_id (put raw b) n) c)),
     final (update (with_id (put raw b) n) c),
     trace (update (with_id (put raw b) n) c)).
Proof.
  intros Hn Hv.
  apply serve_routed.
  unfold router. cbn [put method params_id through].
  rewrite validateId_spec.
  change (parseInt_param (params_id (put raw b))) with (parseInt raw).
  rewrite Hn.
  pose proof (validateToDo_params (put raw b) (NumParam n)) as Hp.
  rewrite Hp, Hv. reflexivity.
Qed.

End Router.

(** * Properties of the specification *)

(** ** Validation *)

Section ValidationClaims.

Import ToDoController.



(** C8.  A creation request whose title is missing or empty, whose title
    is not a string, or whose [completed] is present and not a boolean is
    answered with status 400 by [validateToDo], whatever [completed]
    holds in the first two cases, and reaches neither the controller nor
    the store. *)
Theorem create_rejects_invalid_body (b : jsobject) (c : collection) :
  get_prop b "title" = JUndefined
  \/ get_prop b "title" = JStr ""
  \/ typeof (get_prop b "title") <> TString
  \/ (get_prop b "completed" <> JUndefined
      /\ typeof (get_prop b "completed") <> TBoolean) ->
  exists m, validateToDo (post b) = inl (json 400 (ErrorObject m))
            /\ serve (post b) c = (Some (json 400 (ErrorObject m)), c, []).
Proof.
  intros Hbad.
  assert (exists m, validateToDo (post b) = inl (json 400 (ErrorObject m)))
    as [m Hv].
  { unfold validateToDo. cbn [post method body http_method_eqb andb].
    destruct (get_prop b "title") as [ | | t | n | s | | ] eqn:Ht;
      cbn [truthy negb typeof jstype_eqb andb];
      try (eexists; reflexivity);
      try (destruct t; eexists; reflexivity);
      try (destruct (n =? 0); eexists; reflexivity).
    destruct (String.eqb s "") eqn:Hs; cbn [negb]; [eexists; reflexivity|].
    apply String.eqb_neq in Hs.
    destruct Hbad as [Hb | [Hb | [Hb | [Hd Hb]]]];
      [discriminate | congruence | cbn in Hb; congruence |].
    destruct (get_prop b "completed") as [ | | t | n | s' | | ];
      cbn [is_defined typeof jstype_eqb negb andb] in *;
      try (eexists; reflexivity); congruence. }
  exists m. split; [exact Hv|].
  unfold serve, router. cbn [post method params_id through].
  fold (post b). rewrite Hv. reflexivity.
Qed.

Lemma create_rejects_invalid_body_witness :
  let b := [("completed"%string, JBool true)] in
  (get_prop b "title" = JUndefined
   \/ get_prop b "title" = JStr ""
   \/ typeof (get_prop b "title") <> TString
   \/ (get_prop b "completed" <> JUndefined
       /\ typeof (get_prop b "completed") <> TBoolean))
  /\ (exists m, validateToDo (post b) = inl (json 400 (ErrorObject m))
                /\ serve (post b) empty_collection
                   = (Some (json 400 (ErrorObject m)), empty_collection, [])).
Proof.
  intros b.
  assert (get_prop b "title" = JUndefined
          \/ get_prop b "title" = JStr ""
          \/ typeof (get_prop b "title") <> TString
          \/ (get_prop b "completed" <> JUndefined
              /\ typeof (get_prop b "completed") <> TBoolean)) as Hbad
    by (left; reflexivity).
  split; [exact Hbad|].
  exact (create_rejects_invalid_body b empty_collection Hbad).
Defined.

(** C9.  A routed request that fails validation (its path identifier
    does not parse, or [validateToDo] answers its body) is answered with
    status 400 without any call of a store-adapter method, and the
    collection is left as it was. *)
Theorem validation_precedes_store
  (req : request) (handler : M response) (c : collection) :
  router req = Some handler ->
  fails_validation req ->
  status (result (handler c)) = 400
  /\ trace (handler c) = []
  /\ final (handler c) = c.
Proof.
  intros Hr Hf. apply router_routed in Hr.
  pose proof (routed_fails req handler c Hr Hf) as H400.
  destruct (routed_400 req handler c Hr H400) as [Heq _].
  split; [exact H400|]. rewrite Heq. split; reflexivity.
Qed.

Lemma validation_precedes_store_witness :
  let req := get_one "abc" in
  let handler := through [validateId] getById req in
  router req = Some handler
  /\ fails_validation req
  /\ status (result (handler empty_collection)) = 400
  /\ trace (handler empty_collection) = []
  /\ final (handler empty_collection) = empty_collection.
Proof.
  intros req handler.
  assert (router req = Some handler) as Hr by reflexivity.
  assert (fails_validation req) as Hf
    by (left; split; [discriminate | reflexivity]).
  split; [exact Hr|]. split; [exact Hf|].
  exact (validation_precedes_store req handler empty_collection Hr Hf).
Defined.

(** Conversely, a 400 of the router comes from a validation middleware:
    the guard of [create] on the title is not reached through the route. *)
Lemma bad_request_has_no_store_call
  (req : request) (handler : M response) (c : collection) :
  router req = Some handler ->
  status (result (handler c)) = 400 ->
  fails_validation req /\ trace (handler c) = [] /\ final (handler c) = c.
Proof.
  intros Hr H400. apply router_routed in Hr.
  destruct (routed_400 req handler c Hr H400) as [Heq Hf].
  split; [exact Hf|]. rewrite Heq. split; reflexivity.
Qed.

End ValidationClaims.

(** ** Creation and the uniqueness of identifiers *)

Section CreateClaims.

Import ToDoController.

Lemma serve_all_nil (c : collection) : serve_all [] c = ([], c, []).
Proof. reflexivity. Qed.

Lemma serve_all_cons (req : request) (rest : list request) (c : collection) :
  serve_all (req :: rest) c
  = (result (serve req c) :: result (serve_all rest (final (serve req c))),
     final (serve_all rest (final (serve req c))),
     trace (serve req c) ++ trace (serve_all rest (final (serve req c)))).
Proof.
  cbn [serve_all]. unfold mbind, M_bind, mret, M_ret, result, final, trace.
  destruct (serve req c) as [[r c1] t1]. cbn [fst snd].
  destruct (serve_all rest c1) as [[rs c2] t2]. cbn [fst snd].
  rewrite app_nil_r. reflexivity.
Qed.

Lemma ids_inserted (c : collection) (todo : ToDo.t) :
  ids (inserted c todo) = ids c ++ [ToDo.id todo].
Proof. unfold ids, inserted. cbn [docs]. rewrite map_app. reflexivity. Qed.

Lemma inserted_unique (c : collection) (b : jsobject) :
  exact_ids c ->
  NoDup (ids c) -> NoDup (ids (inserted c (newToDo (docs c) b))).
Proof.
  intros Hexact Hnd. rewrite ids_inserted. apply NoDup_app.
  split; [exact Hnd|]. split; [|apply NoDup_singleton].
  intros x Hx Hin. apply list_elem_of_singleton in Hin. subst x.
  apply list_elem_of_fmap in Hx as (d & Heq & Hd).
  apply (newId_fresh (docs c) d Hexact Hd). symmetry. exact Heq.
Qed.

(** A creation keeps the identifiers distinct while they are in the
    exact range; an update and a deletion always do. *)
Lemma create_unique (req : request) (c : collection) :
  exact_ids c ->
  NoDup (ids c) -> NoDup (ids (final (create req c))).
Proof.
  intros Hexact Hnd.
  destruct (truthy (get_prop (body req) "title")) eqn:Ht.
  - rewrite create_accepted by exact Ht. apply inserted_unique; assumption.
  - rewrite create_rejected by exact Ht. exact Hnd.
Qed.

Lemma update_final (req : request) (c : collection) :
  final (update req c)
  = updated c (parseInt_param (params_id req)) (updateData (body req)).
Proof.
  pose proof (update_eq req c) as Hu. cbv zeta in Hu. rewrite Hu.
  destruct (modifiedCount _ =? 0); reflexivity.
Qed.

Lemma update_unique (req : request) (c : collection) :
  NoDup (ids c) -> NoDup (ids (final (update req c))).
Proof.
  intros Hnd. rewrite update_final. unfold ids, updated. cbn [docs].
  rewrite updateOne_ids. exact Hnd.
Qed.

Lemma delete_final (req : request) (c : collection) :
  final (delete req c) = deleted c (parseInt_param (params_id req)).
Proof.
  pose proof (delete_eq req c) as Hd. cbv zeta in Hd. rewrite Hd.
  reflexivity.
Qed.

Lemma delete_unique (req : request) (c : collection) :
  NoDup (ids c) -> NoDup (ids (final (delete req c))).
Proof.
  intros Hnd. rewrite delete_final. unfold ids, deleted. cbn [docs].
  apply (NoDup_ids_sublist (docs c)); [apply deleteOne_sublist | exact Hnd].
Qed.

Lemma routed_unique (req : request) (handler : M response) (c : collection) :
  routed req handler ->
  method req <> POST \/ exact_ids c ->
  NoDup (ids c) -> NoDup (ids (final (handler c))).
Proof.
  intros Hr Hexact Hnd. destruct Hr; try exact Hnd.
  - rewrite getById_eq. exact Hnd.
  - apply create_unique; [|exact Hnd].
    destruct Hexact as [Hm | Hexact]; [contradiction | exact Hexact].
  - apply update_unique, Hnd.
  - apply delete_unique, Hnd.
Qed.

Lemma serve_unique (req : request) (c : collection) :
  method req <> POST \/ exact_ids c ->
  NoDup (ids c) -> NoDup (ids (final (serve req c))).
Proof.
  intros Hexact Hnd. destruct (router req) as [handler|] eqn:Hr.
  - rewrite (serve_routed req handler c Hr).
    apply (routed_unique req); [apply router_routed, Hr | assumption ..].
  - rewrite serve_unrouted by exact Hr. exact Hnd.
Qed.

Lemma room_for_exact (k : nat) (c : collection) :
  room_for (S k) c -> exact_ids c.
Proof.
  intros [_ Hall]. unfold exact_ids. eapply Forall_impl; [exact Hall|].
  intros d Hd. cbv beta in Hd. unfold exact_id. lia.
Qed.

Lemma room_for_inserted (k : nat) (c : collection) (b : jsobject) :
  room_for (S k) c -> room_for k (inserted c (newToDo (docs c) b)).
Proof.
  intros [Hk Hall]. split; [lia|]. cbn [inserted docs].
  apply Forall_app. split.
  - eapply Forall_impl; [exact Hall|]. intros d Hd. cbv beta in Hd. lia.
  - apply Forall_singleton. cbn [document_of id newToDo ToDo.new ToDo.id].
    apply newId_room; [lia | lia |].
    eapply Forall_impl; [exact Hall|]. intros d Hd. cbv beta in Hd. lia.
Qed.

(** A run of accepted creations appends one document each, with
    increasing identifiers above those already listed, as long as the
    identifiers stay in the exact range. *)
Lemma creates_increase (bodies : list jsobject) (c : collection) :
  Forall (fun b => validateToDo (post b) = inr (post b)) bodies ->
  room_for (length bodies) c ->
  exists added,
    docs (final (serve_all (post <$> bodies) c)) = docs c ++ added
    /\ length added = length bodies
    /\ StronglySorted Z.lt (id <$> added)
    /\ Forall (fun d => forall x, x ∈ docs c -> id x < id d) added.
Proof.
  intros Hvalid. revert c.
  induction Hvalid as [|b bodies Hb Hrest IH]; intros c Hroom.
  - exists []. rewrite app_nil_r. repeat split; constructor.
  - cbn [fmap list_fmap]. rewrite serve_all_cons.
    rewrite (serve_POST b c Hb). cbn [final fst snd].
    cbn [length] in Hroom.
    pose proof (room_for_exact _ _ Hroom) as Hexact.
    destruct (IH (inserted c (newToDo (docs c) b))
                (room_for_inserted _ c b Hroom))
      as (added & Hdocs & Hlen & Hsorted & Habove).
    set (d0 := document_of (next_oid c) (newToDo (docs c) b)) in *.
    exists (d0 :: added). cbn [inserted docs] in *. fold d0 in Hdocs, Habove.
    rewrite Hdocs, <- app_assoc. repeat split.
    + cbn. rewrite Hlen. reflexivity.
    + cbn [fmap list_fmap]. constructor; [exact Hsorted|].
      apply Forall_fmap. eapply Forall_impl; [exact Habove|].
      intros d Hd. apply (Hd d0). apply elem_of_app. right. left.
    + constructor.
      * intros x Hx. apply (newId_above (docs c) x Hexact Hx).
      * eapply Forall_impl; [exact Habove|].
        intros d Hd x Hx. apply Hd. apply elem_of_app. left. exact Hx.
Qed.

(** Distinct identifiers followed by increasing ones above them. *)
Lemma NoDup_ids_app_above (l added : list document) :
  NoDup (map id l) ->
  StronglySorted Z.lt (id <$> added) ->
  Forall (fun d => forall x, x ∈ l -> id x < id d) added ->
  NoDup (map id (l ++ added)).
Proof.
  intros Hnd Hsorted Habove. rewrite map_app. apply NoDup_app.
  split; [exact Hnd|]. split; [|apply StronglySorted_lt_NoDup, Hsorted].
  intros i Hi Hi'.
  apply list_elem_of_fmap in Hi as (x & -> & Hx).
  apply list_elem_of_fmap in Hi' as (d & Heq & Hd).
  rewrite Forall_forall in Habove. specialize (Habove d Hd x Hx). lia.
Qed.

Lemma validateToDo_post_truthy (req req' : request) :
  method req = POST ->
  validateToDo req = inr req' ->
  truthy (get_prop (body req) "title") = true.
Proof.
  intros Hm Hv. destruct (validateToDo_post req req' Hm Hv) as [(s & -> & Hne) _].
  cbn. apply String.eqb_neq in Hne. rewrite Hne. reflexivity.
Qed.

(** A stored task stays the first one listed under its identifier as
    long as no update or deletion acts on that identifier. *)
Lemma serve_keeps_task (req : request) (c : collection) (tid : Z)
  (d : document) :
  find_todo (Some tid) (docs c) = Some d ->
  (method req = PUT \/ method req = DELETE -> ~ targets req tid) ->
  find_todo (Some tid) (docs (final (serve req c))) = Some d.
Proof.
  intros Hfind Hother.
  destruct (router req) as [handler|] eqn:Hr;
    [|rewrite serve_unrouted by exact Hr; exact Hfind].
  rewrite (serve_routed req handler c Hr). cbn [final fst snd].
  apply router_routed in Hr.
  destruct Hr as [ | | | n | Hm Hp Hv | n Hm Hp Hn Hv | n Hm Hp Hn];
    try exact Hfind.
  - rewrite getById_eq. exact Hfind.
  - rewrite create_accepted
      by (apply (validateToDo_post_truthy req req); assumption).
    cbn [final fst snd inserted docs]. apply find_todo_app, Hfind.
  - rewrite update_final. cbn [with_id params_id body updated docs].
    rewrite updateOne_other; [exact Hfind|].
    intros Hkey. apply Hother; [left; exact Hm|].
    exists n. split; [exact Hn | symmetry; exact Hkey].
  - rewrite delete_final. cbn [with_id params_id deleted docs].
    rewrite deleteOne_other; [exact Hfind|].
    intros Hkey. apply Hother; [right; exact Hm|].
    exists n. split; [exact Hn | symmetry; exact Hkey].
Qed.

Lemma serve_all_keeps_task (reqs : list request) (c : collection) (tid : Z)
  (d : document) :
  find_todo (Some tid) (docs c) = Some d ->
  Forall (fun req => method req = PUT \/ method req = DELETE ->
                     ~ targets req tid) reqs ->
  find_todo (Some tid) (docs (final (serve_all reqs c))) = Some d.
Proof.
  intros Hfind Hall. revert c Hfind.
  induction Hall as [|req rest Hreq Hrest IH]; intros c Hfind; [exact Hfind|].
  rewrite serve_all_cons. cbn [final fst snd].
  apply IH. apply serve_keeps_task; assumption.
Qed.

(** The task that a creation stores is found under its identifier when
    no listed task has it already. *)
Lemma inserted_found (c : collection) (todo : ToDo.t) :
  exact_ids c ->
  ToDo.id todo = newId (docs c) ->
  find_todo (Some (ToDo.id todo)) (docs (inserted c todo))
  = Some (document_of (next_oid c) todo).
Proof.
  intros Hexact Hid. cbn [inserted docs]. rewrite find_todo_app_new.
  - rewrite decide_True; reflexivity.
  - intros x Hx. cbn [document_of id]. rewrite Hid.
    apply newId_fresh; assumption.
Qed.

(** With identifiers in the exact range the new one is there or is
    [2^53], which [parseInt] reads back from its decimal string. *)
Lemma newId_reparsed (c : collection) :
  exact_ids c -> parseInt_param (NumParam (newId (docs c))) = Some (newId (docs c)).
Proof.
  intros Hexact. apply parseInt_param_num.
  pose proof (newId_room (docs c) 0) as Hroom.
  destruct Hroom as [Hlo Hhi]; [lia | lia | | lia].
  eapply Forall_impl; [exact Hexact|]. intros d Hd. cbv beta in Hd.
  unfold exact_id in Hd. lia.
Qed.

(** C1.  The creation of a first task assigns the identifier 1, stores
    the task with [completed] defaulting to [false] and answers with
    status 201; the body of the answer is serialised from the [ToDo]
    instance, which has no own enumerable property: it carries none of
    the task's fields. *)
Theorem create_first_task_response :
  serve (post [("title"%string, JStr "buy milk")]) empty_collection
  = (Some {| status := 201; sent := Some (Properties []) |},
     {| docs := [ {| _id := 0; id := 1; title := JStr "buy milk";
                     completed := JBool false |} ];
        next_oid := 1 |},
     [Connect; GetAllToDos; InsertToDo]).
Proof. reflexivity. Qed.

(** Identifier assignment in general: an accepted creation stores the
    task built from the body under [newId], which is 1 on an empty
    listing and otherwise the sum, as a double, of the greatest listed
    identifier and 1: one more than it in the exact range. *)
Lemma create_stores_next_id (b : jsobject) (c : collection) :
  validateToDo (post b) = inr (post b) ->
  final (serve (post b) c) = inserted c (newToDo (docs c) b)
  /\ ToDo.id (newToDo (docs c) b) = newId (docs c)
  /\ ToDo.title (newToDo (docs c) b) = get_prop b "title"
  /\ (get_prop b "completed" = JUndefined ->
      ToDo.completed (newToDo (docs c) b) = JBool false)
  /\ (docs c = [] -> newId (docs c) = 1)
  /\ (docs c <> [] -> exact_ids c ->
      (exists d, d ∈ docs c /\ newId (docs c) = id d + 1)
      /\ forall d, d ∈ docs c -> id d < newId (docs c)).
Proof.
  intros Hv. rewrite (serve_POST b c Hv).
  repeat split.
  - intros Hc. unfold newToDo. rewrite Hc. reflexivity.
  - intros ->. reflexivity.
  - apply newId_succ_of_listed; assumption.
  - intros d Hd. apply newId_above; assumption.
Qed.

(** At [2^53] the sum with 1 is [2^53] again: a creation on a collection
    whose only task has that identifier stores a second task under it,
    and two creations in a row assign the same identifier twice. *)
Lemma create_at_2_53_repeats_an_id :
  let c := {| docs := [ {| _id := 0; id := 2 ^ 53; title := JStr "a";
                           completed := JBool false |} ];
              next_oid := 1 |} in
  let b := [("title"%string, JStr "b")] in
  NoDup (ids c)
  /\ validateToDo (post b) = inr (post b)
  /\ ids (final (create (post b) c)) = [2 ^ 53; 2 ^ 53]
  /\ ids (final (serve_all [post b; post b] c)) = [2 ^ 53; 2 ^ 53; 2 ^ 53]
  /\ ~ NoDup (ids (final (create (post b) c)))
  /\ ~ NoDup (ids (final (serve (post b) c))).
Proof.
  intros c b.
  assert (ids (final (create (post b) c)) = [2 ^ 53; 2 ^ 53]) as Hcreate
    by (vm_compute; reflexivity).
  assert (ids (final (serve (post b) c)) = [2 ^ 53; 2 ^ 53]) as Hserve
    by (vm_compute; reflexivity).
  split; [apply NoDup_singleton|]. split; [reflexivity|].
  split; [exact Hcreate|]. split; [vm_compute; reflexivity|].
  split; [rewrite Hcreate | rewrite Hserve];
    intros Hnd; apply NoDup_cons in Hnd as [Hin _]; apply Hin; left.
Qed.

(** C2.  Updates and deletions, at the controller and through the
    router, leave pairwise distinct identifiers pairwise distinct; so
    does a creation on a collection whose identifiers are in the exact
    range, from [- 2^53] up to but not including [2^53].  A run of
    accepted creations during which the identifiers stay in that range
    appends one document per request, and the identifiers it assigns are
    strictly increasing and above those already listed. *)
Theorem unique_ids_preserved_and_creates_increase
  (c : collection) (req : request) (bodies : list jsobject) :
  NoDup (ids c) ->
  (NoDup (ids (final (update req c)))
   /\ NoDup (ids (final (delete req c)))
   /\ (method req <> POST \/ exact_ids c ->
       NoDup (ids (final (serve req c))))
   /\ (exact_ids c -> NoDup (ids (final (create req c)))))
  /\ (Forall (fun b => validateToDo (post b) = inr (post b)) bodies ->
      room_for (length bodies) c ->
      exists added,
        docs (final (serve_all (post <$> bodies) c)) = docs c ++ added
        /\ length added = length bodies
        /\ StronglySorted Z.lt (id <$> added)
        /\ Forall (fun d => forall x, x ∈ docs c -> id x < id d) added
        /\ NoDup (ids (final (serve_all (post <$> bodies) c)))).
Proof.
  intros Hnd. split.
  - split; [apply update_unique, Hnd|]. split; [apply delete_unique, Hnd|].
    split; [intros Hexact; apply serve_unique; assumption|].
    intros Hexact. apply create_unique; assumption.
  - intros Hvalid Hroom.
    destruct (creates_increase bodies c Hvalid Hroom)
      as (added & Hdocs & Hlen & Hsorted & Habove).
    exists added. repeat split; try assumption.
    unfold ids. rewrite Hdocs. apply NoDup_ids_app_above; assumption.
Qed.

Lemma unique_ids_preserved_and_creates_increase_witness :
  let c := {| docs := [ {| _id := 0; id := 3; title := JStr "a";
                           completed := JBool false |};
                        {| _id := 1; id := 1; title := JStr "b";
                           completed := JBool true |} ];
              next_oid := 2 |} in
  let req := post [("title"%string, JStr "e")] in
  let bodies := [ [("title"%string, JStr "c")];
                  [("title"%string, JStr "d");
                   ("completed"%string, JBool true)] ] in
  NoDup (ids c)
  /\ Forall (fun b => validateToDo (post b) = inr (post b)) bodies
  /\ room_for (length bodies) c
  /\ exact_ids c
  /\ (NoDup (ids (final (update req c)))
      /\ NoDup (ids (final (delete req c)))
      /\ NoDup (ids (final (serve req c)))
      /\ NoDup (ids (final (create req c))))
  /\ exists added,
       docs (final (serve_all (post <$> bodies) c)) = docs c ++ added
       /\ length added = length bodies
       /\ StronglySorted Z.lt (id <$> added)
       /\ Forall (fun d => forall x, x ∈ docs c -> id x < id d) added
       /\ NoDup (ids (final (serve_all (post <$> bodies) c))).
Proof.
  intros c req bodies.
  assert (NoDup (ids c)) as Hnd.
  { apply NoDup_cons. split; [|apply NoDup_singleton].
    intros Hin. apply list_elem_of_singleton in Hin. discriminate Hin. }
  assert (Forall (fun b => validateToDo (post b) = inr (post b)) bodies)
    as Hvalid by (repeat constructor).
  assert (room_for (length bodies) c) as Hroom
    by (split; [cbn; lia | repeat constructor; cbn; lia]).
  assert (exact_ids c) as Hexact
    by (repeat constructor; cbn; lia).
  split; [exact Hnd|]. split; [exact Hvalid|]. split; [exact Hroom|].
  split; [exact Hexact|].
  destruct (unique_ids_preserved_and_creates_increase c req bodies Hnd)
    as [(Hupdate & Hdelete & Hserve & Hcreate) Hrun].
  split; [|exact (Hrun Hvalid Hroom)].
  split; [exact Hupdate|]. split; [exact Hdelete|].
  split; [apply Hserve; right; exact Hexact | apply Hcreate, Hexact].
Defined.

(** A task created under an identifier that is already listed is not the
    one a fetch returns: on a collection whose only task has identifier
    [2^53], the created task gets [2^53] too, and the fetch of that
    identifier answers with the older task.  A path identifier from
    [10^21] on is not the integer the controller looks up: its string is
    in exponent notation, and [parseInt] reads 1 from it. *)
Lemma fetch_after_create_at_2_53_returns_older_task :
  let old := {| _id := 0; id := 2 ^ 53; title := JStr "old";
                completed := JBool true |} in
  let first := {| _id := 0; id := 1; title := JStr "first";
                  completed := JBool false |} in
  let c := {| docs := [old]; next_oid := 1 |} in
  let b := [("title"%string, JStr "new")] in
  validateToDo (post b) = inr (post b)
  /\ ToDo.id (newToDo (docs c) b) = 2 ^ 53
  /\ ToDo.title (newToDo (docs c) b) = JStr "new"
  /\ parseInt "9007199254740992" = Some (2 ^ 53)
  /\ result (serve (get_one "9007199254740992") (final (serve (post b) c)))
     = Some (json 200 (Document old))
  /\ title old <> ToDo.title (newToDo (docs c) b)
  /\ parseInt "1000000000000000000000" = Some (10 ^ 21)
  /\ result (serve (get_one "1000000000000000000000")
               {| docs := [first]; next_oid := 1 |})
     = Some (json 200 (Document first))
  /\ id first <> 10 ^ 21.
Proof.
  intros old first c b.
  repeat split; try (vm_compute; reflexivity); vm_compute; discriminate.
Qed.

(** C5.  On a collection whose identifiers are in the exact range, a
    task created through the router is read back under its identifier
    with exactly the fields of the created task, whatever requests are
    served in between, as long as none of them is an update or a
    deletion that acts on that identifier.  In general, a fetch answers
    with the first listed task whose identifier is the number that the
    controller parses from the path identifier, and with status 404 when
    no listed task has it; that number is the requested integer when
    this is at most [2^53] in magnitude. *)
Theorem created_task_round_trip
  (c : collection) (b : jsobject) (between : list request)
  (rawT raw : string) (n : Z) :
  parseInt raw = Some n ->
  let T := newToDo (docs c) b in
  let c1 := final (serve (post b) c) in
  let c2 := final (serve_all between c1) in
  let key := controller_key raw in
  (validateToDo (post b) = inr (post b) ->
   exact_ids c ->
   parseInt rawT = Some (ToDo.id T) ->
   Forall (fun req => method req = PUT \/ method req = DELETE ->
                      ~ targets req (ToDo.id T)) between ->
   exists d,
     result (serve (get_one rawT) c2) = Some (json 200 (Document d))
     /\ id d = ToDo.id T
     /\ title d = ToDo.title T
     /\ completed d = ToDo.completed T)
  /\ result (serve (get_one raw) c)
     = Some (match find_todo key (docs c) with
             | Some todo => json 200 (Document todo)
             | None => json 404 (ErrorObject ToDo_no_encontrado)
             end)
  /\ (Z.abs n <= 2 ^ 53 -> key = Some n)
  /\ (forall d,
        find_todo key (docs c) = Some d <->
        exists i, docs c !! i = Some d /\ key = Some (id d)
                  /\ forall j x, docs c !! j = Some x -> (j < i)%nat ->
                                 key <> Some (id x))
  /\ (find_todo key (docs c) = None <->
      forall d, d ∈ docs c -> key <> Some (id d)).
Proof.
  intros Hraw T c1 c2 key.
  split; [|split; [|split; [|split]]].
  - intros Hv Hexact HrawT Hbetween.
    exists (document_of (next_oid c) T).
    unfold get_one. rewrite (serve_GET_id [] rawT _ c2 HrawT).
    cbn [result fst].
    assert (parseInt_param (NumParam (ToDo.id T)) = Some (ToDo.id T)) as ->
      by (apply newId_reparsed, Hexact).
    assert (find_todo (Some (ToDo.id T)) (docs c2)
            = Some (document_of (next_oid c) T)) as ->;
      [|repeat split; reflexivity].
    unfold c2. apply serve_all_keeps_task; [|exact Hbetween].
    unfold c1. rewrite (serve_POST b c Hv). cbn [final fst snd].
    apply inserted_found; [exact Hexact | reflexivity].
  - unfold get_one. rewrite (serve_GET_id [] raw n c Hraw).
    unfold key, controller_key. rewrite Hraw. reflexivity.
  - intros Hn. apply controller_key_exact; assumption.
  - intros d. apply find_todo_first.
  - apply find_todo_None.
Qed.

Lemma created_task_round_trip_witness :
  let c := {| docs := [ {| _id := 0; id := 3; title := JStr "a";
                           completed := JBool false |};
                        {| _id := 1; id := 1; title := JStr "b";
                           completed := JBool true |} ];
              next_oid := 2 |} in
  let b := [("title"%string, JStr "c")] in
  let between := [ post [("title"%string, JStr "d")];
                   put "1" [("completed"%string, JBool false)];
                   del "3";
                   get_all ] in
  parseInt "1" = Some 1
  /\ validateToDo (post b) = inr (post b)
  /\ exact_ids c
  /\ parseInt "4" = Some (ToDo.id (newToDo (docs c) b))
  /\ Forall (fun req => method req = PUT \/ method req = DELETE ->
                        ~ targets req (ToDo.id (newToDo (docs c) b))) between
  /\ Z.abs 1 <= 2 ^ 53
  /\ (exists d,
        result (serve (get_one "4")
                  (final (serve_all between (final (serve (post b) c)))))
        = Some (json 200 (Document d))
        /\ id d = 4
        /\ title d = JStr "c"
        /\ completed d = JBool false)
  /\ controller_key "1" = Some 1.
Proof.
  intros c b between.
  assert (parseInt "1" = Some 1) as Hraw by reflexivity.
  assert (validateToDo (post b) = inr (post b)) as Hv by reflexivity.
  assert (exact_ids c) as Hexact by (repeat constructor; cbn; lia).
  assert (parseInt "4" = Some (ToDo.id (newToDo (docs c) b))) as HrawT
    by reflexivity.
  assert (Forall (fun req => method req = PUT \/ method req = DELETE ->
                             ~ targets req (ToDo.id (newToDo (docs c) b)))
            between) as Hbetween.
  { repeat (constructor;
              [intros _ (k & Hk & Hkey); vm_compute in Hk;
               first [ discriminate Hk
                     | injection Hk as <-; vm_compute in Hkey;
                       discriminate Hkey ] |]).
    constructor. }
  assert (Z.abs 1 <= 2 ^ 53) as Hb by (cbn; lia).
  split; [exact Hraw|]. split; [exact Hv|]. split; [exact Hexact|].
  split; [exact HrawT|]. split; [exact Hbetween|]. split; [exact Hb|].
  destruct (created_task_round_trip c b between "4" "1" 1 Hraw)
    as (Hfetch & _ & Hkey & _).
  split; [exact (Hfetch Hv Hexact HrawT Hbetween) | exact (Hkey Hb)].
Defined.

End CreateClaims.

(** ** Updates and deletions *)

Section UpdateDeleteClaims.

Import ToDoController.

Lemma updateData_title (b : jsobject) (d : document) :
  title (apply_set (updateData b) d)
  = if is_defined (get_prop b "title") then get_prop b "title" else title d.
Proof.
  unfold apply_set, updateData. cbn [title set_title].
  destruct (is_defined (get_prop b "title")); reflexivity.
Qed.

Lemma updateData_completed (b : jsobject) (d : document) :
  completed (apply_set (updateData b) d)
  = if is_defined (get_prop b "completed") then get_prop b "completed"
    else completed d.
Proof.
  unfold apply_set, updateData. cbn [completed set_completed].
  destruct (is_defined (get_prop b "completed")); reflexivity.
Qed.

(** C3.  An update of an existing task leaves every position of the
    collection in place; the storage identifier and the identifier of
    every document are kept; a field that is absent from the body keeps
    its stored value in every document; a document with another identifier
    is unchanged; and the task found under the requested identifier
    becomes the stored task with exactly the supplied fields replaced. *)
Theorem update_changes_only_supplied_fields
  (req : request) (n : Z) (c : collection) (d0 : document)
  (i : nat) (d : document) :
  parseInt_param (params_id req) = Some n ->
  find_todo (Some n) (docs c) = Some d0 ->
  docs c !! i = Some d ->
  let c' := final (update req c) in
  let new_title := get_prop (body req) "title" in
  let new_completed := get_prop (body req) "completed" in
  length (docs c') = length (docs c)
  /\ find_todo (Some n) (docs c')
     = Some {| _id := _id d0;
               id := id d0;
               title := if is_defined new_title then new_title
                        else title d0;
               completed := if is_defined new_completed then new_completed
                            else completed d0 |}
  /\ exists d',
       docs c' !! i = Some d'
       /\ _id d' = _id d
       /\ id d' = id d
       /\ (new_title = JUndefined -> title d' = title d)
       /\ (new_completed = JUndefined -> completed d' = completed d)
       /\ (id d <> n -> d' = d).
Proof.
  intros Hn Hfind Hi c' new_title new_completed.
  subst c'. rewrite update_final, Hn. cbn [updated docs].
  split; [apply updateOne_length|]. split.
  - destruct (updateOne_found (Some n) (updateData (body req)) (docs c) d0
                Hfind) as [-> _].
    f_equal. unfold apply_set, updateData. cbn [set_title set_completed].
    fold new_title new_completed.
    destruct (is_defined new_title), (is_defined new_completed); reflexivity.
  - destruct (updateOne_lookup (Some n) (updateData (body req)) (docs c) i d
                Hi) as [Hsame | [Hset Hd]].
    + exists d. repeat split; try reflexivity. exact Hsame.
    + exists (apply_set (updateData (body req)) d).
      split; [exact Hset|]. split; [reflexivity|]. split; [reflexivity|].
      split; [|split].
      * intros Hu. rewrite updateData_title. fold new_title. rewrite Hu.
        reflexivity.
      * intros Hu. rewrite updateData_completed. fold new_completed.
        rewrite Hu. reflexivity.
      * intros Hne. destruct (find_todo_Some _ _ _ Hd) as [_ [= Hid]].
        congruence.
Qed.

Lemma update_changes_only_supplied_fields_witness :
  let c := {| docs := [ {| _id := 0; id := 1; title := JStr "buy milk";
                           completed := JBool false |};
                        {| _id := 1; id := 2; title := JStr "b";
                           completed := JBool false |} ];
              next_oid := 2 |} in
  let req := with_id (put "1" [("completed"%string, JBool true)]) 1 in
  let d0 := {| _id := 0; id := 1; title := JStr "buy milk";
               completed := JBool false |} in
  parseInt_param (params_id req) = Some 1
  /\ find_todo (Some 1) (docs c) = Some d0
  /\ docs c !! 0%nat = Some d0
  /\ length (docs (final (update req c))) = 2%nat
  /\ find_todo (Some 1) (docs (final (update req c)))
     = Some {| _id := 0; id := 1; title := JStr "buy milk";
               completed := JBool true |}.
Proof.
  intros c req d0.
  assert (parseInt_param (params_id req) = Some 1) as Hn by reflexivity.
  assert (find_todo (Some 1) (docs c) = Some d0) as Hfind by reflexivity.
  assert (docs c !! 0%nat = Some d0) as Hi by reflexivity.
  split; [exact Hn|]. split; [exact Hfind|]. split; [exact Hi|].
  destruct (update_changes_only_supplied_fields req 1 c d0 0%nat d0
              Hn Hfind Hi) as (Hlen & Hfound & _).
  split; [exact Hlen | exact Hfound].
Defined.



(** An update that supplies only values already stored changes nothing
    and is answered with 404, although the task is listed. *)
Lemma noop_update_not_found
  (req : request) (n : Z) (c : collection) (d : document) :
  parseInt_param (params_id req) = Some n ->
  find_todo (Some n) (docs c) = Some d ->
  (is_defined (get_prop (body req) "title") = true ->
   get_prop (body req) "title" = title d) ->
  (is_defined (get_prop (body req) "completed") = true ->
   get_prop (body req) "completed" = completed d) ->
  update req c
  = (json 404 (ErrorObject ToDo_no_encontrado), c, [Connect; UpdateToDo]).
Proof.
  intros Hn Hfind Ht Hc.
  assert (apply_set (updateData (body req)) d = d) as Hsame.
  { destruct d as [o k t co]. unfold apply_set, updateData.
    cbn [set_title set_completed _id id title completed] in *.
    destruct (is_defined (get_prop (body req) "title"));
      destruct (is_defined (get_prop (body req) "completed"));
      f_equal; auto. }
  pose proof (update_eq req c) as Hu. cbv zeta in Hu. rewrite Hn in Hu.
  destruct (updateOne_found (Some n) (updateData (body req)) (docs c) d Hfind)
    as [_ Hcount].
  rewrite Hsame, document_eqb_refl in Hcount.
  rewrite Hu, Hcount. cbn [Z.eqb]. unfold updated.
  rewrite updateOne_unmodified by exact Hcount. destruct c; reflexivity.
Qed.

(** C10.  There is an update request for a listed task, supplying only
    the value that is already stored, which is answered with 404: the
    store reports a modified-count of zero although a document matches. *)
Theorem noop_update_reports_not_found :
  exists (c : collection) (raw : string) (b : jsobject) (d : document),
    result (serve (get_one raw) c) = Some (json 200 (Document d))
    /\ get_prop b "title" = JUndefined
    /\ get_prop b "completed" = completed d
    /\ matchedCount
         (result (MongoConnection.updateToDo (parseInt raw)
                    (updateData b) c)) = 1
    /\ modifiedCount
         (result (MongoConnection.updateToDo (parseInt raw)
                    (updateData b) c)) = 0
    /\ serve (put raw b) c
       = (Some (json 404 (ErrorObject ToDo_no_encontrado)), c,
          [Connect; UpdateToDo]).
Proof.
  exists {| docs := [ {| _id := 0; id := 1; title := JStr "buy milk";
                         completed := JBool false |} ];
            next_oid := 1 |},
    "1"%string, [("completed"%string, JBool false)],
    {| _id := 0; id := 1; title := JStr "buy milk";
       completed := JBool false |}.
  repeat split.
Qed.

(** Of two documents with one identifier, a deletion removes the first:
    it is answered with 204, the fetch of the identifier then finds the
    second document, and a second deletion is answered with 204 again. *)
Lemma delete_with_duplicates_leaves_a_task :
  let c := {| docs := [ {| _id := 0; id := 1; title := JStr "a";
                           completed := JBool false |};
                        {| _id := 1; id := 1; title := JStr "b";
                           completed := JBool false |} ];
              next_oid := 2 |} in
  let c1 := final (serve (del "1") c) in
  parseInt "1" = Some 1
  /\ result (serve (del "1") c) = Some {| status := 204; sent := None |}
  /\ result (serve (get_one "1") c1)
     = Some (json 200 (Document {| _id := 1; id := 1; title := JStr "b";
                                   completed := JBool false |}))
  /\ result (serve (del "1") c1) = Some {| status := 204; sent := None |}
  /\ result (serve (get_one "1") c1)
     <> Some (json 404 (ErrorObject ToDo_no_encontrado))
  /\ result (serve (del "1") c1)
     <> Some (json 404 (ErrorObject ToDo_no_encontrado)).
Proof.
  intros c c1. repeat split; try (vm_compute; reflexivity);
    vm_compute; discriminate.
Qed.

(** C6.  A deletion with a path identifier that parses is answered with
    404 exactly when the deleted-count reported by the store adapter is
    zero, and with 204 and no body otherwise; the adapter is called with
    the number that the controller parses from the path identifier, which
    is the requested integer when this is at most [2^53] in magnitude.
    When the identifiers of the collection are pairwise distinct, a fetch
    of the deleted identifier is then answered with 404, and so is a
    second deletion of it. *)
Theorem delete_not_found_iff_nothing_deleted
  (b : jsobject) (raw : string) (n : Z) (c : collection) :
  parseInt raw = Some n ->
  let req := {| method := DELETE; params_id := RawParam raw; body := b |} in
  let key := controller_key raw in
  let count := deletedCount (result (MongoConnection.deleteToDo key c)) in
  let r := serve req c in
  (result r = Some (json 404 (ErrorObject ToDo_no_encontrado)) <-> count = 0)
  /\ (result r = Some {| status := 204; sent := None |} <-> count <> 0)
  /\ (Z.abs n <= 2 ^ 53 -> key = Some n)
  /\ (NoDup (ids c) ->
      result (serve (get_one raw) (final r))
      = Some (json 404 (ErrorObject ToDo_no_encontrado))
      /\ result (serve req (final r))
         = Some (json 404 (ErrorObject ToDo_no_encontrado))).
Proof.
  intros Hn req key count r. subst req key count r.
  unfold controller_key. rewrite Hn.
  rewrite deleteToDo_eq, (serve_DELETE_id b raw n c Hn).
  cbn [result final fst snd].
  split; [|split; [|split]].
  - destruct (deletedCount _ =? 0) eqn:Hc.
    + apply Z.eqb_eq in Hc. split; [intros _; exact Hc | reflexivity].
    + apply Z.eqb_neq in Hc. split; [discriminate | contradiction].
  - destruct (deletedCount _ =? 0) eqn:Hc.
    + apply Z.eqb_eq in Hc. split; [discriminate | contradiction].
    + apply Z.eqb_neq in Hc. split; [intros _; exact Hc | reflexivity].
  - apply parseInt_param_num.
  - intros Hnd.
    set (key := parseInt_param (NumParam n)).
    assert (find_todo key (docs (deleted c key)) = None) as Hgone
      by (apply deleteOne_gone, Hnd).
    split.
    + unfold get_one. rewrite (serve_GET_id [] raw n _ Hn).
      cbn [result fst]. fold key. rewrite Hgone. reflexivity.
    + rewrite (serve_DELETE_id b raw n _ Hn). cbn [result fst]. fold key.
      rewrite deleteOne_count, Hgone. reflexivity.
Qed.

Lemma delete_not_found_iff_nothing_deleted_witness :
  let c := {| docs := [ {| _id := 0; id := 1; title := JStr "buy milk";
                           completed := JBool true |} ];
              next_oid := 1 |} in
  parseInt "1" = Some 1
  /\ Z.abs 1 <= 2 ^ 53
  /\ NoDup (ids c)
  /\ result (serve (del "1") c) = Some {| status := 204; sent := None |}
  /\ controller_key "1" = Some 1
  /\ result (serve (get_one "1") (final (serve (del "1") c)))
     = Some (json 404 (ErrorObject ToDo_no_encontrado))
  /\ result (serve (del "1") (final (serve (del "1") c)))
     = Some (json 404 (ErrorObject ToDo_no_encontrado)).
Proof.
  intros c.
  assert (parseInt "1" = Some 1) as Hn by reflexivity.
  assert (Z.abs 1 <= 2 ^ 53) as Hb by (cbn; lia).
  assert (NoDup (ids c)) as Hnd by (apply NoDup_singleton).
  split; [exact Hn|]. split; [exact Hb|]. split; [exact Hnd|].
  destruct (delete_not_found_iff_nothing_deleted [] "1" 1 c Hn)
    as (_ & H204 & Hkey & Hafter).
  destruct (Hafter Hnd) as [Hget Hdel].
  split; [apply H204; vm_compute; discriminate|].
  split; [exact (Hkey Hb)|].
  split; [exact Hget | exact Hdel].
Defined.

End UpdateDeleteClaims.

(** ** Scenarios *)

Section Scenarios.

Example parseInt_prefix : parseInt "12abc" = Some 12.
Proof. reflexivity. Qed.

Example parseInt_fraction : parseInt "1.9" = Some 1.
Proof. reflexivity. Qed.

Example parseInt_letters : parseInt "abc" = None.
Proof. reflexivity. Qed.

Example parseInt_hexadecimal : parseInt " -0x1F" = Some (-31).
Proof. reflexivity. Qed.

Example parseInt_empty_hexadecimal : parseInt "0x" = None.
Proof. reflexivity. Qed.

Example number_to_string_negative : number_to_string (-120) = "-120"%string.
Proof. reflexivity. Qed.

(** Above [2^53] a decimal is read as the nearest double. *)
Example parseInt_rounds : parseInt "9007199254740993" = Some 9007199254740992.
Proof. vm_compute. reflexivity. Qed.

(** The string of a double has the fewest digits that identify it ... *)
Example number_to_string_shortest :
  number_to_string (2 ^ 64) = "18446744073709552000"%string.
Proof. vm_compute. reflexivity. Qed.

(** ... and an exponent from [10^21] on, of which [parseInt] reads the
    digits before the point or the [e]. *)
Example number_to_string_exponent :
  number_to_string (10 ^ 21) = "1e+21"%string
  /\ number_to_string (2 ^ 70) = "1.1805916207174113e+21"%string.
Proof. split; vm_compute; reflexivity. Qed.

Example controller_key_from_1e21 :
  parseInt "1000000000000000000000" = Some (10 ^ 21)
  /\ controller_key "1000000000000000000000" = Some 1.
Proof. split; vm_compute; reflexivity. Qed.

(** A path identifier too long for a double is accepted by [validateId]
    as [Infinity], which the controller reads as [NaN]: no task is
    found. *)
Example controller_key_from_infinity :
  let raw := String.concat "" (repeat "9999999999"%string 31) in
  parseInt raw = Some (2 ^ 1024) /\ controller_key raw = None.
Proof. split; vm_compute; reflexivity. Qed.

(** POST, GET, PUT, DELETE, GET on an empty collection. *)
Example lifecycle :
  result
    (serve_all
       [ post [("title"%string, JStr "buy milk")];
         get_one "1";
         put "1" [("completed"%string, JBool true)];
         del "1";
         get_one "1" ] empty_collection)
  = [ Some (json 201 (Properties []));
      Some (json 200 (Document {| _id := 0; id := 1;
                                  title := JStr "buy milk";
                                  completed := JBool false |}));
      Some (json 200 (Document {| _id := 0; id := 1;
                                  title := JStr "buy milk";
                                  completed := JBool true |}));
      Some {| status := 204; sent := None |};
      Some (json 404 (ErrorObject ToDo_no_encontrado)) ].
Proof. reflexivity. Qed.

(** An update may store a title that is not a string: the type check of
    [validateToDo] applies to truthy titles only. *)
Example update_stores_null_title :
  result
    (serve (put "1" [("title"%string, JNull)])
       {| docs := [ {| _id := 0; id := 1; title := JStr "a";
                       completed := JBool false |} ];
          next_oid := 1 |})
  = Some (json 200 (Document {| _id := 0; id := 1; title := JNull;
                                completed := JBool false |})).
Proof. reflexivity. Qed.

End Scenarios.

(** * Further properties of the code *)

(** ** Requests through the router *)

Section RouterProperties.

Import ToDoController.

Lemma validateToDo_post_accepts (b : jsobject) (s : string) :
  get_prop b "title" = JStr s ->
  s <> ""%string ->
  (get_prop b "completed" = JUndefined
   \/ exists v, get_prop b "completed" = JBool v) ->
  validateToDo (post b) = inr (post b).
Proof.
  intros Ht Hs Hc. unfold validateToDo.
  cbn [post method body http_method_eqb andb]. rewrite Ht.
  cbn [truthy typeof jstype_eqb negb andb].
  apply String.eqb_neq in Hs. rewrite Hs. cbn [negb andb].
  destruct Hc as [-> | [v ->]]; reflexivity.
Qed.

Lemma serve_get_all (c : collection) :
  serve get_all c
  = (Some (json 200 (Documents (docs c))), c, [Connect; GetAllToDos]).
Proof. reflexivity. Qed.

(** X1.  A creation request whose title is a non-empty string and whose
    [completed] is absent or a boolean is always accepted: it is
    answered with 201 after connect, list and insert, and a listing of
    all tasks then shows the former documents in their order followed by
    the new one, with the next identifier, the title of the body and
    [completed] as given or [false]. *)
Theorem valid_creation_is_listed_last
  (b : jsobject) (s : string) (c : collection) :
  get_prop b "title" = JStr s ->
  s <> ""%string ->
  (get_prop b "completed" = JUndefined
   \/ exists v, get_prop b "completed" = JBool v) ->
  let done := serve (post b) c in
  result done = Some (json 201 (Properties []))
  /\ trace done = [Connect; GetAllToDos; InsertToDo]
  /\ result (serve get_all (final done))
     = Some (json 200 (Documents
         (docs c ++
          [ {| _id := next_oid c;
               id := newId (docs c);
               title := JStr s;
               completed := match get_prop b "completed" with
                            | JUndefined => JBool false
                            | v => v
                            end |} ]))).
Proof.
  intros Ht Hs Hc done. subst done.
  rewrite (serve_POST b c (validateToDo_post_accepts b s Ht Hs Hc)).
  cbn [result final trace fst snd]. rewrite serve_get_all.
  unfold inserted, document_of, newToDo, ToDo.new.
  cbn [result fst docs ToDo.id ToDo.title ToDo.completed].
  rewrite Ht. repeat split.
  destruct (get_prop b "completed"); reflexivity.
Qed.

Lemma valid_creation_is_listed_last_witness :
  let b := [("title"%string, JStr "buy milk")] in
  let c := {| docs := [ {| _id := 0; id := 4; title := JStr "a";
                           completed := JBool true |} ];
              next_oid := 1 |} in
  get_prop b "title" = JStr "buy milk"
  /\ "buy milk"%string <> ""%string
  /\ (get_prop b "completed" = JUndefined
      \/ exists v, get_prop b "completed" = JBool v)
  /\ result (serve get_all (final (serve (post b) c)))
     = Some (json 200 (Documents
         [ {| _id := 0; id := 4; title := JStr "a";
              completed := JBool true |};
           {| _id := 1; id := 5; title := JStr "buy milk";
              completed := JBool false |} ])).
Proof.
  intros b c.
  assert (get_prop b "title" = JStr "buy milk") as Ht by reflexivity.
  assert ("buy milk"%string <> ""%string) as Hs by discriminate.
  assert (get_prop b "completed" = JUndefined
          \/ exists v, get_prop b "completed" = JBool v) as Hc
    by (left; reflexivity).
  split; [exact Ht|]. split; [exact Hs|]. split; [exact Hc|].
  exact (proj2 (proj2 (valid_creation_is_listed_last b "buy milk" c
                         Ht Hs Hc))).
Defined.

Lemma routed_unsuccessful (req : request) (handler : M response)
  (c : collection) :
  routed req handler ->
  status (result (handler c)) = 400
  \/ status (result (handler c)) = 404
  \/ method req = GET ->
  final (handler c) = c.
Proof.
  intros Hr Hs.
  destruct Hr as [Hm Hp Hn | res Hm Hv | Hm Hp | n Hm Hp Hn | Hm Hp Hv
                 | n Hm Hp Hn Hv | n Hm Hp Hn]; try reflexivity.
  - rewrite getById_eq. reflexivity.
  - rewrite create_accepted in *
      by (apply (validateToDo_post_truthy req req); assumption).
    cbn in Hs. destruct Hs as [Hs | [Hs | Hs]]; [lia | lia | congruence].
  - pose proof (update_eq (with_id req n) c) as Hu. cbv zeta in Hu.
    rewrite Hu in *. clear Hu.
    destruct (modifiedCount _ =? 0) eqn:Hc.
    + apply Z.eqb_eq in Hc. cbn [final fst snd]. unfold updated.
      rewrite updateOne_unmodified by exact Hc. destruct c; reflexivity.
    + destruct (find_todo _ _); cbn in Hs;
        destruct Hs as [Hs | [Hs | Hs]]; try lia; congruence.
  - pose proof (delete_eq (with_id req n) c) as Hd. cbv zeta in Hd.
    rewrite Hd in *. clear Hd. cbn [final fst snd].
    destruct (deletedCount _ =? 0) eqn:Hc.
    + apply Z.eqb_eq in Hc. rewrite deleteOne_count in Hc.
      unfold deleted. rewrite deleteOne_missing; [destruct c; reflexivity|].
      destruct (find_todo _ _); [discriminate | reflexivity].
    + cbn in Hs. destruct Hs as [Hs | [Hs | Hs]]; try lia; congruence.
Qed.

(** X2.  A request that the router answers with 400 or 404, and every
    GET request, leaves the collection exactly as it was: a refused
    update or deletion has no partial effect. *)
Theorem unsuccessful_request_changes_nothing
  (req : request) (handler : M response) (c : collection) :
  router req = Some handler ->
  status (result (handler c)) = 400
  \/ status (result (handler c)) = 404
  \/ method req = GET ->
  final (handler c) = c.
Proof.
  intros Hr. apply routed_unsuccessful. apply router_routed, Hr.
Qed.

Lemma unsuccessful_request_changes_nothing_witness :
  let c := {| docs := [ {| _id := 0; id := 1; title := JStr "a";
                           completed := JBool false |} ];
              next_oid := 1 |} in
  let req := put "7" [("title"%string, JStr "b")] in
  let handler := through [validateId; validateToDo] update req in
  router req = Some handler
  /\ (status (result (handler c)) = 400
      \/ status (result (handler c)) = 404
      \/ method req = GET)
  /\ final (handler c) = c.
Proof.
  intros c req handler.
  assert (router req = Some handler) as Hr by reflexivity.
  assert (status (result (handler c)) = 400
          \/ status (result (handler c)) = 404
          \/ method req = GET) as Hs by (right; left; reflexivity).
  split; [exact Hr|]. split; [exact Hs|].
  exact (unsuccessful_request_changes_nothing req handler c Hr Hs).
Defined.

Lemma routed_shape (req : request) (handler : M response) (c : collection) :
  routed req handler ->
  let res := result (handler c) in
  let t := trace (handler c) in
  (status res = 400 /\ t = [])
  \/ (status res = 200 /\ t = [Connect; GetAllToDos])
  \/ (status res = 404 /\ t = [Connect; GetAllToDos])
  \/ (status res = 201 /\ t = [Connect; GetAllToDos; InsertToDo])
  \/ (status res = 404 /\ t = [Connect; UpdateToDo])
  \/ (status res = 200 /\ t = [Connect; UpdateToDo; GetAllToDos])
  \/ (status res = 404 /\ t = [Connect; DeleteToDo])
  \/ (status res = 204 /\ t = [Connect; DeleteToDo]).
Proof.
  intros Hr.
  destruct Hr as [Hm Hp Hn | res Hm Hv | Hm Hp | n Hm Hp Hn | Hm Hp Hv
                 | n Hm Hp Hn Hv | n Hm Hp Hn]; cbv zeta.
  - left. split; reflexivity.
  - left. destruct (validateToDo_answer _ _ Hv) as [m ->]. split; reflexivity.
  - right. left. split; reflexivity.
  - rewrite getById_eq. destruct (find_todo _ _);
      [right; left | right; right; left]; split; reflexivity.
  - rewrite create_accepted
      by (apply (validateToDo_post_truthy req req); assumption).
    do 3 right. left. split; reflexivity.
  - pose proof (update_eq (with_id req n) c) as Hu. cbv zeta in Hu.
    rewrite Hu. clear Hu.
    destruct (modifiedCount _ =? 0);
      [do 4 right; left; split; reflexivity|].
    do 5 right. left. destruct (find_todo _ _); split; reflexivity.
  - pose proof (delete_eq (with_id req n) c) as Hd. cbv zeta in Hd.
    rewrite Hd. clear Hd.
    destruct (deletedCount _ =? 0);
      [do 6 right; left | do 7 right]; split; reflexivity.
Qed.

(** X3.  Whatever the request and the collection, the router answers
    with one of five statuses, and each goes with one sequence of store
    calls: a 400 with no call at all; otherwise connect comes first and
    at most one of insert, update and delete follows; a GET only lists.
    A request that no route matches reaches no store call. *)
Theorem statuses_and_store_calls (req : request) (c : collection) :
  match result (serve req c) with
  | None => trace (serve req c) = [] /\ final (serve req c) = c
  | Some res =>
      let t := trace (serve req c) in
      (status res = 400 /\ t = [])
      \/ (status res = 200 /\ t = [Connect; GetAllToDos]
          /\ method req = GET)
      \/ (status res = 404 /\ t = [Connect; GetAllToDos]
          /\ method req = GET)
      \/ (status res = 201 /\ t = [Connect; GetAllToDos; InsertToDo]
          /\ method req = POST)
      \/ (status res = 404 /\ t = [Connect; UpdateToDo]
          /\ method req = PUT)
      \/ (status res = 200 /\ t = [Connect; UpdateToDo; GetAllToDos]
          /\ method req = PUT)
      \/ (status res = 404 /\ t = [Connect; DeleteToDo]
          /\ method req = DELETE)
      \/ (status res = 204 /\ t = [Connect; DeleteToDo]
          /\ method req = DELETE)
  end.
Proof.
  destruct (router req) as [handler|] eqn:Hr;
    [|rewrite serve_unrouted by exact Hr; split; reflexivity].
  rewrite (serve_routed req handler c Hr). cbn [result trace fst snd].
  apply router_routed in Hr.
  pose proof (routed_shape req handler c Hr) as Hshape. cbv zeta in Hshape.
  unfold result, trace in Hshape.
  assert (forall m, method req = m ->
            trace (handler c) <> [] ->
            (In InsertToDo (trace (handler c)) -> m = POST)
            /\ (In UpdateToDo (trace (handler c)) -> m = PUT)
            /\ (In DeleteToDo (trace (handler c)) -> m = DELETE)
            /\ (trace (handler c) = [Connect; GetAllToDos] -> m = GET))
    as Hverb.
  { intros m Hm Hne.
    destruct Hr as [Hm' Hp Hn | res Hm' Hv | Hm' Hp | n Hm' Hp Hn
                   | Hm' Hp Hv | n Hm' Hp Hn Hv | n Hm' Hp Hn].
    - contradiction Hne. reflexivity.
    - contradiction Hne. reflexivity.
    - repeat split; intros H; cbn in H; try congruence;
        repeat (destruct H as [H|H]; try discriminate H); contradiction.
    - rewrite getById_eq in *. cbn [trace snd] in *.
      repeat split; intros H; cbn in H; try congruence;
        repeat (destruct H as [H|H]; try discriminate H); contradiction.
    - rewrite create_accepted in *
        by (apply (validateToDo_post_truthy req req); assumption).
      cbn [trace snd] in *.
      repeat split; intros H; cbn in H; try congruence;
        repeat (destruct H as [H|H]; try discriminate H); contradiction.
    - pose proof (update_eq (with_id req n) c) as Hu. cbv zeta in Hu.
      rewrite Hu in *. clear Hu.
      destruct (modifiedCount _ =? 0); cbn [trace snd] in *;
        repeat split; intros H; cbn in H; try congruence;
        repeat (destruct H as [H|H]; try discriminate H); contradiction.
    - pose proof (delete_eq (with_id req n) c) as Hd. cbv zeta in Hd.
      rewrite Hd in *. clear Hd. cbn [trace snd] in *.
      repeat split; intros H; cbn in H; try congruence;
        repeat (destruct H as [H|H]; try discriminate H); contradiction. }
  unfold trace in Hverb.
  destruct Hshape as [[Hs Ht] | [[Hs Ht] | [[Hs Ht] | [[Hs Ht] | [[Hs Ht]
                     | [[Hs Ht] | [[Hs Ht] | [Hs Ht]]]]]]]];
    [left; split; assumption | ..];
    destruct (Hverb (method req) eq_refl) as (Hi & Hu & Hd & Hg);
    try (rewrite Ht; discriminate).
  - right. left. repeat split; try assumption. apply Hg, Ht.
  - do 2 right. left. repeat split; try assumption. apply Hg, Ht.
  - do 3 right. left. repeat split; try assumption.
    apply Hi. rewrite Ht. cbn. auto.
  - do 4 right. left. repeat split; try assumption.
    apply Hu. rewrite Ht. cbn. auto.
  - do 5 right. left. repeat split; try assumption.
    apply Hu. rewrite Ht. cbn. auto.
  - do 6 right. left. repeat split; try assumption.
    apply Hd. rewrite Ht. cbn. auto.
  - do 7 right. repeat split; try assumption.
    apply Hd. rewrite Ht. cbn. auto.
Qed.

(** X4.  Of a request body, only [title] and [completed] are read: two
    requests with the same verb and path whose bodies agree on these two
    properties are answered alike and leave the same collection.  In
    particular an [id] in the body is never stored. *)
Theorem only_title_and_completed_are_read
  (req req' : request) (c : collection) :
  method req = method req' ->
  params_id req = params_id req' ->
  get_prop (body req) "title" = get_prop (body req') "title" ->
  get_prop (body req) "completed" = get_prop (body req') "completed" ->
  serve req c = serve req' c.
Proof.
  destruct req as [m p b], req' as [m' p' b']. cbn [method params_id body].
  intros <- <- Ht Hc.
  unfold serve, router. cbn [method params_id].
  destruct m, p; try reflexivity; cbn [through];
    unfold validateId; cbn [method params_id body];
    try match goal with
      | |- context [parseInt_param ?q] => destruct (parseInt_param q)
      end;
    try reflexivity;
    unfold validateToDo; cbn [method params_id body];
    rewrite ?Ht, ?Hc;
    repeat match goal with
      | |- context [if ?x then _ else _] => destruct x
      end;
    try reflexivity;
    unfold create, update, getById, delete, newToDo, updateData,
      mbind, M_bind;
    cbn [method params_id body];
    rewrite ?Ht, ?Hc; reflexivity.
Qed.

Lemma only_title_and_completed_are_read_witness :
  let req := post [("title"%string, JStr "a")] in
  let req' := post [("id"%string, JNum 99); ("title"%string, JStr "a");
                    ("owner"%string, JStr "me")] in
  method req = method req'
  /\ params_id req = params_id req'
  /\ get_prop (body req) "title" = get_prop (body req') "title"
  /\ get_prop (body req) "completed" = get_prop (body req') "completed"
  /\ serve req empty_collection = serve req' empty_collection.
Proof.
  intros req req'.
  assert (method req = method req') as Hm by reflexivity.
  assert (params_id req = params_id req') as Hp by reflexivity.
  assert (get_prop (body req) "title" = get_prop (body req') "title")
    as Ht by reflexivity.
  assert (get_prop (body req) "completed"
          = get_prop (body req') "completed") as Hc by reflexivity.
  split; [exact Hm|]. split; [exact Hp|]. split; [exact Ht|].
  split; [exact Hc|].
  exact (only_title_and_completed_are_read req req' empty_collection
           Hm Hp Ht Hc).
Defined.

Lemma title_check (t : jsval) :
  truthy t && negb (jstype_eqb (typeof t) TString) = false <->
  truthy t = false \/ exists s, t = JStr s.
Proof.
  destruct t as [ | | b | n | s | | ]; cbn [truthy typeof jstype_eqb negb].
  - split; [left; reflexivity | reflexivity].
  - split; [left; reflexivity | reflexivity].
  - destruct b; cbn.
    + split; [discriminate | intros [H | [s H]]; discriminate].
    + split; [left; reflexivity | reflexivity].
  - destruct (n =? 0); cbn.
    + split; [left; reflexivity | reflexivity].
    + split; [discriminate | intros [H | [s H]]; discriminate].
  - rewrite andb_false_r. split; [right; exists s; reflexivity | reflexivity].
  - cbn. split; [discriminate | intros [H | [s H]]; discriminate].
  - cbn. split; [discriminate | intros [H | [s H]]; discriminate].
Qed.

Lemma completed_check (k : jsval) :
  is_defined k && negb (jstype_eqb (typeof k) TBoolean) = false <->
  k = JUndefined \/ exists v, k = JBool v.
Proof.
  destruct k as [ | | b | n | s | | ];
    cbn [is_defined typeof jstype_eqb negb andb].
  - split; [left; reflexivity | reflexivity].
  - split; [discriminate | intros [H | [v H]]; discriminate].
  - split; [right; exists b; reflexivity | reflexivity].
  - split; [discriminate | intros [H | [v H]]; discriminate].
  - split; [discriminate | intros [H | [v H]]; discriminate].
  - split; [discriminate | intros [H | [v H]]; discriminate].
  - split; [discriminate | intros [H | [v H]]; discriminate].
Qed.

Lemma validateToDo_passes_update (req : request) :
  method req <> POST ->
  (validateToDo req = inr req <->
   (truthy (get_prop (body req) "title") = false
    \/ exists s, get_prop (body req) "title" = JStr s)
   /\ (get_prop (body req) "completed" = JUndefined
       \/ exists v, get_prop (body req) "completed" = JBool v)).
Proof.
  intros Hm. unfold validateToDo.
  assert (http_method_eqb (method req) POST = false) as ->
    by (destruct (method req); try reflexivity; congruence).
  cbn [andb].
  rewrite <- title_check, <- completed_check.
  destruct (truthy _ && _); [split; [discriminate | intros [H _]; discriminate]|].
  destruct (is_defined _ && _);
    [split; [discriminate | intros [_ H]; discriminate]|].
  split; [split; reflexivity | reflexivity].
Qed.

(** X5.  On a request that is not a POST, [validateToDo] passes
    exactly the bodies whose title is falsy or a string and whose
    [completed] is absent or a boolean: an update needs no title, and an
    empty, [null], [false] or [0] title is let through. *)
Theorem validateToDo_on_update (req : request) :
  method req <> POST ->
  (validateToDo req = inr req <->
   (truthy (get_prop (body req) "title") = false
    \/ exists s, get_prop (body req) "title" = JStr s)
   /\ (get_prop (body req) "completed" = JUndefined
       \/ exists v, get_prop (body req) "completed" = JBool v)).
Proof. apply validateToDo_passes_update. Qed.

Lemma validateToDo_on_update_witness :
  let req := put "1" [("title"%string, JNull)] in
  method req <> POST
  /\ (validateToDo req = inr req <->
      (truthy (get_prop (body req) "title") = false
       \/ exists s, get_prop (body req) "title" = JStr s)
      /\ (get_prop (body req) "completed" = JUndefined
          \/ exists v, get_prop (body req) "completed" = JBool v)).
Proof.
  intros req.
  assert (method req <> POST) as Hm by discriminate.
  split; [exact Hm|].
  exact (validateToDo_on_update req Hm).
Defined.

Lemma updateOne_changed (key : option Z) (u : update_data)
  (l : list document) (d : document) :
  find_todo key l = Some d ->
  apply_set u d <> d ->
  modifiedCount (snd (updateOne key u l)) = 1.
Proof.
  intros Hfind Hne.
  destruct (updateOne_found key u l d Hfind) as [_ ->].
  destruct (document_eqb d (apply_set u d)) eqn:Heq; [|reflexivity].
  apply document_eqb_eq in Heq. congruence.
Qed.

(** X6.  An update can replace the title of a stored task by a value
    that is not a string: a title that is [null], [false], [0] or the
    empty string passes the validation of a PUT and is written to the
    store, and the answer is 200 with the task carrying that title.  The
    task is the one listed first under the number that the controller
    parses from the path identifier. *)
Theorem update_stores_falsy_title
  (raw : string) (n : Z) (c : collection) (d : document) (v : jsval) :
  parseInt raw = Some n ->
  find_todo (controller_key raw) (docs c) = Some d ->
  is_defined v = true ->
  truthy v = false ->
  v <> title d ->
  let d' := {| _id := _id d; id := id d; title := v;
               completed := completed d |} in
  let r := serve (put raw [("title"%string, v)]) c in
  result r = Some (json 200 (Document d'))
  /\ find_todo (controller_key raw) (docs (final r)) = Some d'.
Proof.
  intros Hn Hfind Hdef Hfalsy Hne d' r. subst r.
  unfold controller_key in *. rewrite Hn in *.
  set (key := parseInt_param (NumParam n)) in *.
  set (b := [("title"%string, v)]).
  assert (get_prop b "title" = v) as Ht.
  { cbn. destruct v; reflexivity. }
  assert (get_prop b "completed" = JUndefined) as Hc by reflexivity.
  assert (validateToDo (put raw b) = inr (put raw b)) as Hv.
  { apply validateToDo_passes_update; [discriminate|].
    cbn [put body]. rewrite Ht, Hc. split; left; [exact Hfalsy | reflexivity]. }
  rewrite (serve_PUT b raw n c Hn Hv). cbn [result final fst snd].
  pose proof (update_eq (with_id (put raw b) n) c) as Hu. cbv zeta in Hu.
  cbn [with_id put params_id body] in Hu. fold key in Hu.
  cbn [with_id put params_id body method]. rewrite Hu. clear Hu.
  assert (apply_set (updateData b) d = d') as Hset.
  { unfold apply_set, updateData. rewrite Ht, Hc, Hdef. reflexivity. }
  assert (apply_set (updateData b) d <> d) as Hdiff.
  { rewrite Hset. intros Heq. apply Hne.
    change v with (title d'). rewrite Heq. reflexivity. }
  rewrite (updateOne_changed _ _ _ _ Hfind Hdiff). cbn [Z.eqb].
  destruct (updateOne_found key (updateData b) (docs c) d Hfind)
    as [Hfound _].
  cbn [updated docs fst snd]. rewrite Hfound, Hset.
  split; [reflexivity|].
  cbn [final fst snd updated docs]. rewrite Hfound, Hset. reflexivity.
Qed.

Lemma update_stores_falsy_title_witness :
  let c := {| docs := [ {| _id := 0; id := 1; title := JStr "buy milk";
                           completed := JBool false |} ];
              next_oid := 1 |} in
  let d := {| _id := 0; id := 1; title := JStr "buy milk";
              completed := JBool false |} in
  parseInt "1" = Some 1
  /\ find_todo (controller_key "1") (docs c) = Some d
  /\ is_defined JNull = true
  /\ truthy JNull = false
  /\ JNull <> title d
  /\ result (serve (put "1" [("title"%string, JNull)]) c)
     = Some (json 200 (Document {| _id := 0; id := 1; title := JNull;
                                   completed := JBool false |})).
Proof.
  intros c d.
  assert (parseInt "1" = Some 1) as Hn by reflexivity.
  assert (find_todo (controller_key "1") (docs c) = Some d) as Hfind
    by reflexivity.
  assert (is_defined JNull = true) as Hdef by reflexivity.
  assert (truthy JNull = false) as Hfalsy by reflexivity.
  assert (JNull <> title d) as Hne by discriminate.
  split; [exact Hn|]. split; [exact Hfind|]. split; [exact Hdef|].
  split; [exact Hfalsy|]. split; [exact Hne|].
  exact (proj1 (update_stores_falsy_title "1" 1 c d JNull
                  Hn Hfind Hdef Hfalsy Hne)).
Defined.

End RouterProperties.

(** ** Invariants of the collection *)

Section Invariants.

Import ToDoController.

Lemma Forall_sublist_of {A} (P : A -> Prop) (l l' : list A) :
  sublist l' l -> Forall P l -> Forall P l'.
Proof.
  intros Hsub Hall. apply Forall_forall. intros x Hx.
  rewrite Forall_forall in Hall. apply Hall.
  apply (elem_of_sublist l' l x Hx Hsub).
Qed.

Lemma updateOne_Forall (P : document -> Prop) (key : option Z)
  (u : update_data) (l : list document) :
  (forall d, P d -> P (apply_set u d)) ->
  Forall P l -> Forall P (fst (updateOne key u l)).
Proof.
  intros Hset. induction l as [|x l IH]; intros Hall; [constructor|].
  apply Forall_cons in Hall as [Hx Hl].
  rewrite updateOne_cons. case_decide; cbn [fst].
  - constructor; [apply Hset, Hx | exact Hl].
  - constructor; [exact Hx | apply IH, Hl].
Qed.

Lemma document_of_well_typed (oid : nat) (todos : list document)
  (req : request) :
  method req = POST ->
  validateToDo req = inr req ->
  well_typed (document_of oid (newToDo todos (body req))).
Proof.
  intros Hm Hv.
  destruct (validateToDo_post req req Hm Hv) as [(s & Hs & Hne) Hc].
  unfold well_typed, document_of, newToDo, ToDo.new.
  cbn [completed title ToDo.title ToDo.completed]. rewrite Hs.
  split; [|split; [discriminate | intros _; exists s; reflexivity]].
  destruct Hc as [-> | [v ->]]; eexists; reflexivity.
Qed.

Lemma apply_set_well_typed (req : request) (d : document) :
  method req = PUT ->
  validateToDo req = inr req ->
  well_typed d ->
  well_typed (apply_set (updateData (body req)) d).
Proof.
  intros Hm Hv ([b Hb] & Hundef & Hstr).
  apply validateToDo_passes_update in Hv as [Ht Hc]; [|congruence].
  unfold well_typed, apply_set, updateData.
  cbn [completed title set_title set_completed].
  split; [|split].
  - destruct Hc as [-> | [v ->]]; cbn [is_defined]; eauto.
  - destruct (get_prop (body req) "title"); cbn [is_defined];
      try discriminate; exact Hundef.
  - destruct (get_prop (body req) "title") as [ | | t | n | s | | ] eqn:Ht';
      cbn [is_defined]; try exact Hstr;
      intros Htrue; destruct Ht as [Ht | [s' Ht]];
      try congruence; eauto.
Qed.

Lemma routed_well_typed (req : request) (handler : M response)
  (c : collection) :
  routed req handler ->
  Forall well_typed (docs c) ->
  Forall well_typed (docs (final (handler c))).
Proof.
  intros Hr Hall.
  destruct Hr as [Hm Hp Hn | res Hm Hv | Hm Hp | n Hm Hp Hn | Hm Hp Hv
                 | n Hm Hp Hn Hv | n Hm Hp Hn]; try exact Hall.
  - rewrite getById_eq. exact Hall.
  - rewrite create_accepted
      by (apply (validateToDo_post_truthy req req); assumption).
    cbn [final fst snd inserted docs]. apply Forall_app. split; [exact Hall|].
    constructor; [|constructor].
    apply document_of_well_typed; assumption.
  - rewrite update_final. cbn [updated docs with_id body].
    apply updateOne_Forall; [|exact Hall].
    intros d Hd. apply apply_set_well_typed; assumption.
  - rewrite delete_final. cbn [deleted docs].
    apply (Forall_sublist_of _ (docs c)); [apply deleteOne_sublist | exact Hall].
Qed.

(** X7.  Through the router the stored fields keep their types: if in
    every document [completed] is a boolean and the title is a string or
    one of [null], [false] and [0], the same holds after any request. *)
Theorem routes_keep_fields_typed (req : request) (c : collection) :
  Forall well_typed (docs c) ->
  Forall well_typed (docs (final (serve req c))).
Proof.
  intros Hall. destruct (router req) as [handler|] eqn:Hr.
  - rewrite (serve_routed req handler c Hr). cbn [final fst snd].
    apply (routed_well_typed req); [apply router_routed, Hr | exact Hall].
  - rewrite serve_unrouted by exact Hr. exact Hall.
Qed.

Lemma routes_keep_fields_typed_witness :
  let c := {| docs := [ {| _id := 0; id := 1; title := JStr "a";
                           completed := JBool false |} ];
              next_oid := 1 |} in
  let req := put "1" [("title"%string, JNum 0);
                      ("completed"%string, JBool true)] in
  Forall well_typed (docs c)
  /\ Forall well_typed (docs (final (serve req c))).
Proof.
  intros c req.
  assert (Forall well_typed (docs c)) as Hall.
  { constructor; [|constructor].
    split; [exists false; reflexivity|].
    split; [discriminate | intros _; exists "a"%string; reflexivity]. }
  split; [exact Hall|].
  exact (routes_keep_fields_typed req c Hall).
Defined.

Lemma ids_exact (c : collection) (k : Z) :
  k < 2 ^ 53 ->
  Forall (fun i => 1 <= i <= k) (ids c) -> exact_ids c.
Proof.
  intros Hk Hall. unfold exact_ids. apply Forall_fmap in Hall.
  eapply Forall_impl; [exact Hall|].
  intros d Hd. cbn in Hd. unfold exact_id. lia.
Qed.

Lemma routed_ids_bounded (req : request) (handler : M response)
  (c : collection) (k : Z) :
  routed req handler ->
  0 <= k < 2 ^ 53 ->
  Forall (fun i => 1 <= i <= k) (ids c) ->
  Forall (fun i => 1 <= i <= k + 1) (ids (final (handler c))).
Proof.
  intros Hr Hk Hall.
  assert (Forall (fun i => 1 <= i <= k + 1) (ids c)) as Hweak
    by (eapply Forall_impl; [exact Hall | intros i Hi; cbn in *; lia]).
  pose proof (ids_exact c k (proj2 Hk) Hall) as Hexact.
  destruct Hr as [Hm Hp Hn | res Hm Hv | Hm Hp | n Hm Hp Hn | Hm Hp Hv
                 | n Hm Hp Hn Hv | n Hm Hp Hn]; try exact Hweak.
  - rewrite getById_eq. exact Hweak.
  - rewrite create_accepted
      by (apply (validateToDo_post_truthy req req); assumption).
    cbn [final fst snd]. rewrite ids_inserted. apply Forall_app.
    split; [exact Hweak|]. constructor; [|constructor].
    change (ToDo.id (newToDo (docs c) (body req))) with (newId (docs c)).
    unfold exact_ids in Hexact.
    destruct (docs c) as [|x l] eqn:Hdocs; [rewrite newId_empty; lia|].
    destruct (newId_succ_of_listed (x :: l) Hexact) as (d & Hd & ->);
      [discriminate|].
    rewrite Forall_forall in Hall.
    assert (1 <= id d <= k) as Hbound.
    { apply Hall. unfold ids. rewrite Hdocs.
      apply list_elem_of_fmap. exists d. split; [reflexivity | exact Hd]. }
    lia.
  - rewrite update_final. unfold ids, updated. cbn [docs].
    rewrite updateOne_ids. exact Hweak.
  - rewrite delete_final. unfold ids, deleted. cbn [docs].
    apply (Forall_sublist_of _ (map id (docs c))); [|exact Hweak].
    apply (fmap_sublist id). apply deleteOne_sublist.
Qed.

Lemma serve_all_ids_bounded (reqs : list request) (c : collection) (k : Z) :
  0 <= k ->
  k + Z.of_nat (length reqs) <= 2 ^ 53 ->
  NoDup (ids c) ->
  Forall (fun i => 1 <= i <= k) (ids c) ->
  NoDup (ids (final (serve_all reqs c)))
  /\ Forall (fun i => 1 <= i <= k + Z.of_nat (length reqs))
       (ids (final (serve_all reqs c))).
Proof.
  revert c k. induction reqs as [|req rest IH]; intros c k Hk Hroom Hnd Hall.
  - split; [exact Hnd|].
    cbn. eapply Forall_impl; [exact Hall | intros i Hi; cbn in *; lia].
  - rewrite serve_all_cons. cbn [final fst snd length] in *.
    replace (k + Z.of_nat (S (length rest)))
      with ((k + 1) + Z.of_nat (length rest)) by lia.
    assert (k < 2 ^ 53) as Hlt by lia.
    apply IH; [lia | lia | |].
    + apply serve_unique; [right; exact (ids_exact c k Hlt Hall) | exact Hnd].
    + destruct (router req) as [handler|] eqn:Hr.
      * rewrite (serve_routed req handler c Hr). cbn [final fst snd].
        apply (routed_ids_bounded req);
          [apply router_routed, Hr | lia | exact Hall].
      * rewrite serve_unrouted by exact Hr. cbn [final fst snd].
        eapply Forall_impl; [exact Hall | intros i Hi; cbn in *; lia].
Qed.

Lemma serve_all_app (l1 l2 : list request) (c : collection) :
  final (serve_all (l1 ++ l2) c)
  = final (serve_all l2 (final (serve_all l1 c))).
Proof.
  revert c. induction l1 as [|r l1 IH]; intros c; [reflexivity|].
  cbn [app]. rewrite !serve_all_cons. cbn [final fst snd]. apply IH.
Qed.

(** On a collection that lists the identifiers 1 to [m], below [2^53],
    the new identifier is [m + 1]. *)
Lemma newId_of_first (l : list document) (m : nat) :
  map id l = Z.of_nat <$> seq 1 m ->
  Z.of_nat m < 2 ^ 53 ->
  newId l = Z.of_nat m + 1.
Proof.
  intros Hids Hm.
  assert (forall d, d ∈ l -> 1 <= id d <= Z.of_nat m) as Hbound.
  { intros d Hd.
    assert (id d ∈ map id l) as Hin
      by (apply list_elem_of_fmap; exists d; split; [reflexivity | exact Hd]).
    rewrite Hids in Hin. apply list_elem_of_fmap in Hin as (i & -> & Hi).
    apply elem_of_seq in Hi. lia. }
  assert (Forall (fun d => exact_id (id d)) l) as Hexact.
  { apply Forall_forall. intros d Hd. specialize (Hbound d Hd).
    unfold exact_id. lia. }
  destruct l as [|x l'].
  - destruct m; [reflexivity | discriminate Hids].
  - destruct (newId_succ_of_listed (x :: l') Hexact) as (d & Hd & Heq);
      [discriminate|].
    pose proof (Hbound d Hd) as Hd_le.
    assert (Z.of_nat m ∈ map id (x :: l')) as Hlast.
    { rewrite Hids. apply list_elem_of_fmap. exists m. split; [reflexivity|].
      apply elem_of_seq. destruct m; [discriminate Hids | lia]. }
    apply list_elem_of_fmap in Hlast as (d' & Hd'eq & Hd').
    pose proof (newId_above (x :: l') d' Hexact Hd'). lia.
Qed.

(** Accepted creations on such a collection extend the identifiers to
    1, ..., [m + k] as long as this is at most [2^53]. *)
Lemma creations_from_first (b : jsobject) (k : nat) :
  validateToDo (post b) = inr (post b) ->
  forall (c : collection) (m : nat),
    ids c = Z.of_nat <$> seq 1 m ->
    Z.of_nat m + Z.of_nat k <= 2 ^ 53 ->
    ids (final (serve_all (repeat (post b) k) c))
    = Z.of_nat <$> seq 1 (m + k).
Proof.
  intros Hv. induction k as [|k IH]; intros c m Hids Hroom.
  - cbn [repeat]. rewrite Nat.add_0_r. exact Hids.
  - cbn [repeat]. rewrite serve_all_cons, (serve_POST b c Hv).
    cbn [final fst snd].
    replace (m + S k)%nat with (S m + k)%nat by lia.
    apply IH; [|lia].
    rewrite ids_inserted, Hids.
    change (ToDo.id (newToDo (docs c) b)) with (newId (docs c)).
    rewrite (newId_of_first (docs c) m Hids) by lia.
    rewrite seq_S, fmap_app. cbn [fmap list_fmap]. do 2 f_equal. lia.
Qed.

(** When the identifiers 1 to [2^53] are listed, one more creation
    assigns [2^53] again. *)
Lemma creation_at_2_53 (b : jsobject) (c : collection) (k : nat) :
  validateToDo (post b) = inr (post b) ->
  Z.of_nat k = 2 ^ 53 ->
  ids c = Z.of_nat <$> seq 1 k ->
  ids (final (serve (post b) c)) = ids c ++ [2 ^ 53]
  /\ ~ NoDup (ids (final (serve (post b) c))).
Proof.
  intros Hv Hk Hids.
  assert (2 ^ 53 ∈ ids c) as Hlast.
  { rewrite Hids, <- Hk. apply list_elem_of_fmap. exists k.
    split; [reflexivity|]. apply elem_of_seq. lia. }
  assert (ids (final (serve (post b) c)) = ids c ++ [2 ^ 53]) as Hnew.
  { rewrite (serve_POST b c Hv). cbn [final fst snd]. rewrite ids_inserted.
    f_equal. f_equal.
    change (ToDo.id (newToDo (docs c) b)) with (newId (docs c)).
    unfold ids in Hids, Hlast. unfold newId.
    destruct (docs c) as [|x l]; [inversion Hlast|]. cbn [map].
    assert (Math_max (id x) (map id l) = 2 ^ 53) as ->;
      [|vm_compute; reflexivity].
    destruct (Math_max_le (id x) (map id l)) as [Hx Hl].
    pose proof (Math_max_elem (id x) (map id l)) as Hin.
    change (id x :: map id l) with (map id (x :: l)) in Hin.
    rewrite Hids in Hin. apply list_elem_of_fmap in Hin as (i & Hi & Hseq).
    apply elem_of_seq in Hseq.
    cbn [map] in Hlast. apply elem_of_cons in Hlast as [Hlast | Hlast];
      [lia | specialize (Hl _ Hlast); lia]. }
  split; [exact Hnew|].
  rewrite Hnew. intros Hnd. apply NoDup_app in Hnd as (_ & Hdisjoint & _).
  apply (Hdisjoint (2 ^ 53) Hlast). left.
Qed.

(** Without a bound on their number, creations do not keep the
    identifiers distinct: after [2^53] of them on an empty collection,
    the next one repeats the identifier [2^53]. *)
Lemma creations_past_2_53_repeat_an_id :
  let b := [("title"%string, JStr "a")] in
  let reqs := repeat (post b) (Z.to_nat (2 ^ 53)) ++ [post b] in
  ~ NoDup (ids (final (serve_all reqs empty_collection))).
Proof.
  intros b reqs. subst reqs.
  assert (validateToDo (post b) = inr (post b)) as Hv by reflexivity.
  assert (Z.of_nat (Z.to_nat (2 ^ 53)) = 2 ^ 53) as Hk
    by (apply Z2Nat.id; apply Z.pow_nonneg; lia).
  revert Hk. generalize (Z.to_nat (2 ^ 53)). intros k Hk.
  rewrite serve_all_app, serve_all_cons. cbn [final fst snd].
  apply (creation_at_2_53 b _ k Hv Hk).
  apply (creations_from_first b k Hv empty_collection 0%nat);
    [reflexivity | lia].
Qed.

(** X8.  Whatever requests are served one after the other from an
    empty collection, at most [2^53] of them, the identifiers in the
    collection are pairwise distinct and lie between 1 and the number of
    requests served. *)
Theorem histories_keep_ids_distinct_and_bounded (reqs : list request) :
  Z.of_nat (length reqs) <= 2 ^ 53 ->
  let c := final (serve_all reqs empty_collection) in
  NoDup (ids c)
  /\ Forall (fun i => 1 <= i <= Z.of_nat (length reqs)) (ids c).
Proof.
  intros Hlen c. subst c.
  apply (serve_all_ids_bounded reqs empty_collection 0);
    [lia | lia | constructor | constructor].
Qed.

Lemma histories_keep_ids_distinct_and_bounded_witness :
  let reqs := [ post [("title"%string, JStr "a")];
                post [("title"%string, JStr "b")];
                del "1";
                post [("title"%string, JStr "c")] ] in
  Z.of_nat (length reqs) <= 2 ^ 53
  /\ ids (final (serve_all reqs empty_collection)) = [2; 3]
  /\ NoDup (ids (final (serve_all reqs empty_collection)))
  /\ Forall (fun i => 1 <= i <= 4)
       (ids (final (serve_all reqs empty_collection))).
Proof.
  intros reqs.
  assert (Z.of_nat (length reqs) <= 2 ^ 53) as Hlen by (cbn; lia).
  split; [exact Hlen|]. split; [reflexivity|].
  exact (histories_keep_ids_distinct_and_bounded reqs Hlen).
Defined.

End Invariants.

(** ** How the operations compose *)

Section Compositions.

Import ToDoController.

Lemma deleteOne_length (key : option Z) (l : list document) :
  Z.of_nat (length (fst (deleteOne key l)))
  + deletedCount (snd (deleteOne key l))
  = Z.of_nat (length l).
Proof.
  induction l as [|x l IH]; [reflexivity|].
  rewrite deleteOne_cons. case_decide; cbn [fst snd deletedCount length]; lia.
Qed.

Lemma listed_iff_found (l : list document) (n : Z) :
  n ∈ map id l <-> exists d, find_todo (Some n) l = Some d.
Proof.
  split.
  - intros Hin. destruct (find_todo (Some n) l) as [d|] eqn:Hf; [eauto|].
    apply list_elem_of_fmap in Hin as (d & -> & Hd).
    rewrite find_todo_None in Hf. destruct (Hf d Hd). reflexivity.
  - intros [d Hf]. destruct (find_todo_Some _ _ _ Hf) as [Hd [= ->]].
    apply list_elem_of_fmap. exists d. split; [reflexivity | exact Hd].
Qed.

(** X9.  A deletion removes exactly as many documents as the count it
    reports, zero or one; the documents that remain keep their order;
    and what is found under any identifier other than the one that the
    controller parses from the path identifier is what was found
    before. *)
Theorem delete_removes_one_document
  (b : jsobject) (raw : string) (n : Z) (c : collection) :
  parseInt raw = Some n ->
  let r := serve {| method := DELETE; params_id := RawParam raw;
                    body := b |} c in
  let key := controller_key raw in
  let count := deletedCount (snd (deleteOne key (docs c))) in
  sublist (docs (final r)) (docs c)
  /\ Z.of_nat (length (docs (final r))) + count = Z.of_nat (length (docs c))
  /\ (count = 0 \/ count = 1)
  /\ (forall k, Some k <> key ->
        find_todo (Some k) (docs (final r)) = find_todo (Some k) (docs c))
  /\ (Z.abs n <= 2 ^ 53 -> key = Some n).
Proof.
  intros Hn r key count. subst r key count.
  unfold controller_key. rewrite Hn.
  rewrite (serve_DELETE_id b raw n c Hn). cbn [final fst snd deleted docs].
  split; [apply deleteOne_sublist|]. split; [apply deleteOne_length|].
  split; [|split].
  - rewrite deleteOne_count. destruct (find_todo _ _); [right | left];
      reflexivity.
  - intros k Hk. apply deleteOne_other. exact Hk.
  - apply parseInt_param_num.
Qed.

Lemma delete_removes_one_document_witness :
  let c := {| docs := [ {| _id := 0; id := 1; title := JStr "a";
                           completed := JBool false |};
                        {| _id := 1; id := 2; title := JStr "b";
                           completed := JBool true |} ];
              next_oid := 2 |} in
  parseInt "1" = Some 1
  /\ Z.abs 1 <= 2 ^ 53
  /\ controller_key "1" = Some 1
  /\ Z.of_nat (length (docs (final (serve (del "1") c)))) + 1 = 2
  /\ find_todo (Some 2) (docs (final (serve (del "1") c)))
     = find_todo (Some 2) (docs c).
Proof.
  intros c.
  assert (parseInt "1" = Some 1) as Hn by reflexivity.
  assert (Z.abs 1 <= 2 ^ 53) as Hb by (cbn; lia).
  split; [exact Hn|]. split; [exact Hb|].
  destruct (delete_removes_one_document [] "1" 1 c Hn)
    as (_ & Hlen & _ & Hother & Hkey).
  split; [exact (Hkey Hb)|].
  split; [exact Hlen | apply Hother; discriminate].
Defined.

(** X10.  A deletion is answered with 204 exactly when a fetch of the
    same path identifier on the same collection is answered with 200:
    the two operations agree on whether the task exists. *)
Theorem delete_succeeds_iff_fetch_succeeds
  (raw : string) (n : Z) (c : collection) :
  parseInt raw = Some n ->
  (result (serve (del raw) c) = Some {| status := 204; sent := None |}
   <-> exists d,
         result (serve (get_one raw) c) = Some (json 200 (Document d))).
Proof.
  intros Hn. unfold del, get_one.
  rewrite (serve_DELETE_id [] raw n c Hn), (serve_GET_id [] raw n c Hn).
  cbn [result fst]. rewrite deleteOne_count.
  destruct (find_todo (parseInt_param (NumParam n)) (docs c)) as [d|];
    cbn [Z.eqb].
  - split; [intros _; exists d; reflexivity | reflexivity].
  - split; [discriminate | intros [d Hd]; discriminate].
Qed.

Lemma delete_succeeds_iff_fetch_succeeds_witness :
  let c := {| docs := [ {| _id := 0; id := 1; title := JStr "a";
                           completed := JBool false |} ];
              next_oid := 1 |} in
  parseInt "1" = Some 1
  /\ (result (serve (del "1") c) = Some {| status := 204; sent := None |}
      <-> exists d,
            result (serve (get_one "1") c) = Some (json 200 (Document d))).
Proof.
  intros c.
  assert (parseInt "1" = Some 1) as Hn by reflexivity.
  split; [exact Hn|].
  exact (delete_succeeds_iff_fetch_succeeds "1" 1 c Hn).
Defined.

Lemma apply_set_idempotent (u : update_data) (d : document) :
  apply_set u (apply_set u d) = apply_set u d.
Proof.
  unfold apply_set. cbn [_id id title completed].
  destruct (set_title u), (set_completed u); reflexivity.
Qed.

Lemma update_again (req : request) (c : collection) :
  update req (final (update req c))
  = (json 404 (ErrorObject ToDo_no_encontrado), final (update req c),
     [Connect; UpdateToDo]).
Proof.
  rewrite update_final.
  set (key := parseInt_param (params_id req)).
  set (u := updateData (body req)).
  pose proof (update_eq req (updated c key u)) as Hu. cbv zeta in Hu.
  fold key u in Hu.
  assert (modifiedCount (snd (updateOne key u (docs (updated c key u)))) = 0)
    as Hcount.
  { cbn [updated docs].
    destruct (find_todo key (docs c)) as [d|] eqn:Hfind.
    - destruct (updateOne_found key u (docs c) d Hfind) as [Hfound _].
      destruct (updateOne_found key u _ _ Hfound) as [_ ->].
      rewrite apply_set_idempotent, document_eqb_refl. reflexivity.
    - rewrite (updateOne_missing key u (docs c) Hfind). cbn [fst].
      rewrite (updateOne_missing key u (docs c) Hfind). reflexivity. }
  rewrite Hu, Hcount. cbn [Z.eqb]. f_equal. f_equal.
  unfold updated at 1. rewrite updateOne_unmodified by exact Hcount.
  reflexivity.
Qed.

Lemma put_route (raw : string) (b : jsobject) :
  (exists res, status res = 400
     /\ through [validateId; validateToDo] update (put raw b) = mret res)
  \/ (exists n, parseInt raw = Some n
       /\ through [validateId; validateToDo] update (put raw b)
          = update (with_id (put raw b) n)).
Proof.
  cbn [through]. rewrite validateId_spec.
  change (parseInt_param (params_id (put raw b))) with (parseInt raw).
  destruct (parseInt raw) as [n|];
    [|left; exists (json 400 (ErrorObject ID_numero_valido));
      split; reflexivity].
  rewrite (validateToDo_params (put raw b) (NumParam n)).
  destruct (validateToDo (put raw b)) as [res|req'] eqn:Hv.
  - left. exists res. split; [|reflexivity].
    destruct (validateToDo_answer _ _ Hv) as [m ->]. reflexivity.
  - right. exists n. split; reflexivity.
Qed.

(** X11.  An update sent a second time is never answered with 200:
    after the first, the stored task already holds the supplied fields,
    the store modifies nothing, and the controller answers 404 and
    leaves the collection as the first update left it, whether or not
    the task exists. *)
Theorem repeated_update_is_not_found
  (raw : string) (b : jsobject) (req : request) (c : collection) :
  update req (final (update req c))
  = (json 404 (ErrorObject ToDo_no_encontrado), final (update req c),
     [Connect; UpdateToDo])
  /\ exists res,
       result (serve (put raw b) (final (serve (put raw b) c))) = Some res
       /\ (status res = 400 \/ status res = 404)
       /\ final (serve (put raw b) (final (serve (put raw b) c)))
          = final (serve (put raw b) c).
Proof.
  split; [apply update_again|].
  assert (router (put raw b)
          = Some (through [validateId; validateToDo] update (put raw b)))
    as Hr by reflexivity.
  rewrite !(serve_routed (put raw b) _ _ Hr). cbn [result final fst snd].
  destruct (put_route raw b) as [(res & Hs & ->) | (n & Hn & ->)].
  - exists res. repeat split. left. exact Hs.
  - exists (json 404 (ErrorObject ToDo_no_encontrado)).
    rewrite update_again. repeat split. right. reflexivity.
Qed.

(** X12.  When an update is answered with 200, a fetch of the same path
    identifier right after it is answered with the same status and the
    same document. *)
Theorem update_answer_is_what_fetch_returns
  (raw : string) (n : Z) (b : jsobject) (c : collection) (res : response) :
  parseInt raw = Some n ->
  result (serve (put raw b) c) = Some res ->
  status res = 200 ->
  result (serve (get_one raw) (final (serve (put raw b) c))) = Some res.
Proof.
  intros Hn Hres Hs.
  assert (router (put raw b)
          = Some (through [validateId; validateToDo] update (put raw b)))
    as Hr by reflexivity.
  rewrite (serve_routed (put raw b) _ c Hr) in *. clear Hr.
  destruct (put_route raw b) as [(res' & Hs' & Heq) | (k & Hk & Heq)];
    rewrite Heq in *; clear Heq;
    unfold result, final in Hres |- *; cbn [fst snd] in Hres |- *;
    injection Hres as Hres.
  - change (res' = res) in Hres. subst res'. lia.
  - assert (k = n) as -> by congruence.
    unfold get_one. rewrite (serve_GET_id [] raw n _ Hn). cbn [fst].
    pose proof (update_eq (with_id (put raw b) n) c) as Hu. cbv zeta in Hu.
    cbn [with_id put params_id body method] in Hu, Hres |- *.
    rewrite Hu in *. clear Hu.
    destruct (modifiedCount _ =? 0) eqn:Hc; cbn [fst snd] in *.
    + subst res. discriminate Hs.
    + apply Z.eqb_neq in Hc.
      destruct (updateOne_modified _ _ _ Hc) as (d0 & _ & Hfound & _).
      cbn [updated docs] in *. rewrite Hfound in *. subst res. reflexivity.
Qed.

Lemma update_answer_is_what_fetch_returns_witness :
  let c := {| docs := [ {| _id := 0; id := 1; title := JStr "a";
                           completed := JBool false |} ];
              next_oid := 1 |} in
  let b := [("completed"%string, JBool true)] in
  let res := json 200 (Document {| _id := 0; id := 1; title := JStr "a";
                                   completed := JBool true |}) in
  parseInt "1" = Some 1
  /\ result (serve (put "1" b) c) = Some res
  /\ status res = 200
  /\ result (serve (get_one "1") (final (serve (put "1" b) c))) = Some res.
Proof.
  intros c b res.
  assert (parseInt "1" = Some 1) as Hn by reflexivity.
  assert (result (serve (put "1" b) c) = Some res) as Hres by reflexivity.
  assert (status res = 200) as Hs by reflexivity.
  split; [exact Hn|]. split; [exact Hres|]. split; [exact Hs|].
  exact (update_answer_is_what_fetch_returns "1" 1 b c res Hn Hres Hs).
Defined.

Lemma ids_after_delete (c : collection) (n x : Z) :
  NoDup (ids c) ->
  (x ∈ ids (deleted c (Some n)) <-> x ∈ ids c /\ x <> n).
Proof.
  intros Hnd. unfold ids, deleted. cbn [docs]. split.
  - intros Hx. split.
    + apply (elem_of_sublist _ (map id (docs c)) x Hx).
      apply (fmap_sublist id), deleteOne_sublist.
    + intros ->. apply listed_iff_found in Hx as [d Hd].
      rewrite (deleteOne_gone (Some n) (docs c) Hnd) in Hd. discriminate.
  - intros [Hx Hne]. apply listed_iff_found.
    rewrite deleteOne_other by congruence. apply listed_iff_found, Hx.
Qed.

(** X13.  Identifiers of deleted tasks are assigned again.  When the
    task with the greatest identifier [n], at most [2^53], is deleted
    from a collection with distinct positive identifiers, the next
    accepted creation appends a task whose identifier is at most [n],
    and exactly [n] when [n] is 1 or [n - 1] is listed. *)
Theorem deleted_greatest_id_is_assigned_again
  (raw : string) (n : Z) (b : jsobject) (c : collection) :
  parseInt raw = Some n ->
  n <= 2 ^ 53 ->
  NoDup (ids c) ->
  n ∈ ids c ->
  (forall i, i ∈ ids c -> 1 <= i <= n) ->
  validateToDo (post b) = inr (post b) ->
  let c1 := final (serve (del raw) c) in
  let c2 := final (serve (post b) c1) in
  (n ∉ ids c1)
  /\ exists d,
       docs c2 = docs c1 ++ [d]
       /\ 1 <= id d <= n
       /\ ((n = 1 \/ (n - 1) ∈ ids c) -> id d = n).
Proof.
  intros Hn Hmax Hnd Hin Hbound Hv c1 c2. subst c2 c1.
  assert (1 <= n) as Hn1 by (specialize (Hbound n Hin); lia).
  unfold del. rewrite (serve_DELETE_id [] raw n c Hn). cbn [final fst snd].
  rewrite parseInt_param_num by lia.
  rewrite (serve_POST b _ Hv). cbn [final fst snd].
  set (c1 := deleted c (Some n)).
  assert (forall x, x ∈ ids c1 -> 1 <= x < n) as Hbelow.
  { intros x Hx. apply (ids_after_delete c n x Hnd) in Hx as [Hx Hne].
    specialize (Hbound x Hx). lia. }
  assert (Forall (fun d => exact_id (id d)) (docs c1)) as Hexact.
  { apply Forall_forall. intros d Hd.
    assert (1 <= id d < n) as Hidd; [|unfold exact_id; lia].
    apply Hbelow. apply list_elem_of_fmap. exists d.
    split; [reflexivity | exact Hd]. }
  split.
  { intros Hnin. specialize (Hbelow n Hnin). lia. }
  exists (document_of (next_oid c1) (newToDo (docs c1) b)).
  split; [reflexivity|].
  change (id (document_of (next_oid c1) (newToDo (docs c1) b)))
    with (newId (docs c1)).
  destruct (docs c1) as [|x l] eqn:Hdocs.
  - rewrite newId_empty. split; [lia|].
    intros [-> | Hpred]; [reflexivity|].
    assert (n - 1 ∈ ids c1) as Hp
      by (apply (ids_after_delete c n (n - 1) Hnd); split; [exact Hpred | lia]).
    unfold ids in Hp. rewrite Hdocs in Hp. inversion Hp.
  - destruct (newId_succ_of_listed (x :: l) Hexact) as (d & Hd & Heq);
      [discriminate|].
    assert (id d ∈ ids c1) as Hidd.
    { unfold ids. rewrite Hdocs. apply list_elem_of_fmap.
      exists d. split; [reflexivity | exact Hd]. }
    specialize (Hbelow (id d) Hidd). split; [lia|].
    intros [-> | Hpred]; [lia|].
    assert (n - 1 ∈ ids c1) as Hp
      by (apply (ids_after_delete c n (n - 1) Hnd); split; [exact Hpred | lia]).
    unfold ids in Hp. rewrite Hdocs in Hp.
    apply list_elem_of_fmap in Hp as (d' & Hd'eq & Hd').
    pose proof (newId_above (x :: l) d' Hexact Hd'). lia.
Qed.

Lemma deleted_greatest_id_is_assigned_again_witness :
  let c := {| docs := [ {| _id := 0; id := 1; title := JStr "a";
                           completed := JBool false |};
                        {| _id := 1; id := 2; title := JStr "b";
                           completed := JBool false |} ];
              next_oid := 2 |} in
  let b := [("title"%string, JStr "c")] in
  parseInt "2" = Some 2
  /\ 2 <= 2 ^ 53
  /\ NoDup (ids c)
  /\ 2 ∈ ids c
  /\ (forall i, i ∈ ids c -> 1 <= i <= 2)
  /\ validateToDo (post b) = inr (post b)
  /\ exists d,
       docs (final (serve (post b) (final (serve (del "2") c))))
       = docs (final (serve (del "2") c)) ++ [d]
       /\ id d = 2.
Proof.
  intros c b.
  assert (parseInt "2" = Some 2) as Hn by reflexivity.
  assert (2 <= 2 ^ 53) as Hmax by (cbn; lia).
  assert (NoDup (ids c)) as Hnd.
  { apply NoDup_cons. split; [|apply NoDup_singleton].
    intros Hin. apply list_elem_of_singleton in Hin. discriminate Hin. }
  assert (2 ∈ ids c) as Hin by (right; left).
  assert (forall i, i ∈ ids c -> 1 <= i <= 2) as Hbound.
  { intros i Hi. apply elem_of_cons in Hi as [-> | Hi]; [cbn; lia|].
    apply list_elem_of_singleton in Hi as ->. cbn. lia. }
  assert (validateToDo (post b) = inr (post b)) as Hv by reflexivity.
  split; [exact Hn|]. split; [exact Hmax|]. split; [exact Hnd|].
  split; [exact Hin|]. split; [exact Hbound|]. split; [exact Hv|].
  destruct (deleted_greatest_id_is_assigned_again "2" 2 b c
              Hn Hmax Hnd Hin Hbound Hv) as (_ & d & Hdocs & _ & Hid).
  exists d. split; [exact Hdocs|]. apply Hid. right. left.
Defined.

End Compositions.

(** ** Failures of the store *)

Section Failures.

Import ToDoController.

Ltac run_with_faults :=
  unfold catch_next, outcome_with_faults, Try.connect, connect, mbind,
    MF_bind, M_bind, mret, MF_ret, M_ret, attempt, MongoConnection.connect,
    MongoConnection.getAllToDos, MongoConnection.insertToDo;
  cbn [trace result final fst snd first_fault negb].

Lemma getAll_faults (req : request) (p : faults) (c : collection) :
  catch_next (Try.getAll req) p c = outcome_with_faults p c (getAll req c).
Proof.
  rewrite getAll_eq. unfold Try.getAll. run_with_faults.
  destruct (p Connect); [reflexivity|].
  destruct (p GetAllToDos); reflexivity.
Qed.

Lemma getById_faults (req : request) (p : faults) (c : collection) :
  catch_next (Try.getById req) p c = outcome_with_faults p c (getById req c).
Proof.
  rewrite getById_eq. unfold Try.getById. run_with_faults.
  destruct (p Connect); [reflexivity|].
  destruct (p GetAllToDos); [reflexivity|].
  destruct (find_todo _ _); reflexivity.
Qed.

Lemma create_faults (req : request) (p : faults) (c : collection) :
  catch_next (Try.create req) p c = outcome_with_faults p c (create req c).
Proof.
  destruct (truthy (get_prop (body req) "title")) eqn:Ht.
  - rewrite create_accepted by exact Ht. unfold Try.create. rewrite Ht.
    run_with_faults.
    destruct (p Connect); [reflexivity|].
    destruct (p GetAllToDos); [reflexivity|].
    destruct (p InsertToDo); reflexivity.
  - rewrite create_rejected by exact Ht. unfold Try.create. rewrite Ht.
    run_with_faults.
    destruct (p Connect); reflexivity.
Qed.

Lemma update_faults (req : request) (p : faults) (c : collection) :
  catch_next (Try.update req) p c = outcome_with_faults p c (update req c).
Proof.
  pose proof (update_eq req c) as Hu. cbv zeta in Hu. rewrite Hu. clear Hu.
  unfold Try.update.
  destruct (modifiedCount (snd (updateOne _ _ _)) =? 0) eqn:Hc;
    run_with_faults.
  - destruct (p Connect); [reflexivity|].
    destruct (p UpdateToDo); [reflexivity|].
    rewrite updateToDo_eq. cbn [fst snd]. rewrite Hc. reflexivity.
  - destruct (p Connect); [reflexivity|].
    destruct (p UpdateToDo); [reflexivity|].
    rewrite updateToDo_eq. cbn [fst snd]. rewrite Hc.
    destruct (p GetAllToDos); [reflexivity|].
    cbn [updated docs]. destruct (find_todo _ _); reflexivity.
Qed.

Lemma delete_faults (req : request) (p : faults) (c : collection) :
  catch_next (Try.delete req) p c = outcome_with_faults p c (delete req c).
Proof.
  pose proof (delete_eq req c) as Hd. cbv zeta in Hd. rewrite Hd. clear Hd.
  unfold Try.delete. run_with_faults.
  destruct (p Connect); [reflexivity|].
  destruct (p DeleteToDo); [reflexivity|].
  rewrite deleteToDo_eq.
  destruct (deletedCount _ =? 0); reflexivity.
Qed.

(** X14.  When store calls may fail, each controller method runs as on
    a reliable store up to the first call that fails: that call is the
    last one made, the error goes to [errorHandler], whose answer is
    sent, and the collection is as the calls before the failing one left
    it.  When no call of the run fails, the answer, the collection and
    the calls are those of the reliable run. *)
Theorem failures_stop_at_first_fault
  (req : request) (p : faults) (c : collection) :
  catch_next (Try.getAll req) p c = outcome_with_faults p c (getAll req c)
  /\ catch_next (Try.getById req) p c
     = outcome_with_faults p c (getById req c)
  /\ catch_next (Try.create req) p c
     = outcome_with_faults p c (create req c)
  /\ catch_next (Try.update req) p c
     = outcome_with_faults p c (update req c)
  /\ catch_next (Try.delete req) p c
     = outcome_with_faults p c (delete req c).
Proof.
  repeat split;
    [apply getAll_faults | apply getById_faults | apply create_faults
    | apply update_faults | apply delete_faults].
Qed.

(** X15.  An update is not atomic with its answer: when the update
    call modifies the task and the listing that follows fails, the
    client receives the answer of [errorHandler] although the collection
    has been changed. *)
Theorem update_may_persist_and_fail
  (req : request) (p : faults) (c : collection) (err : JsError.t) :
  p Connect = None ->
  p UpdateToDo = None ->
  p GetAllToDos = Some err ->
  modifiedCount
    (snd (updateOne (parseInt_param (params_id req))
            (updateData (body req)) (docs c))) <> 0 ->
  catch_next (Try.update req) p c
  = (inl (errorHandler err),
     updated c (parseInt_param (params_id req)) (updateData (body req)),
     [Connect; UpdateToDo; GetAllToDos])
  /\ updated c (parseInt_param (params_id req)) (updateData (body req)) <> c.
Proof.
  intros Hc Hu Hg Hm. split.
  - rewrite update_faults.
    pose proof (update_eq req c) as Heq. cbv zeta in Heq. rewrite Heq.
    apply Z.eqb_neq in Hm. rewrite Hm.
    unfold outcome_with_faults. cbn [trace snd first_fault].
    rewrite Hc, Hu, Hg. reflexivity.
  - destruct (updateOne_modified _ _ _ Hm) as (d0 & Hfind & Hfound & Hne).
    intros Heq. apply Hne.
    assert (docs (updated c (parseInt_param (params_id req))
                    (updateData (body req))) = docs c) as Hdocs
      by (rewrite Heq; reflexivity).
    cbn [updated docs] in Hdocs. rewrite Hdocs in Hfound. congruence.
Qed.

Lemma update_may_persist_and_fail_witness :
  let c := {| docs := [ {| _id := 0; id := 1; title := JStr "a";
                           completed := JBool false |} ];
              next_oid := 1 |} in
  let req := with_id (put "1" [("completed"%string, JBool true)]) 1 in
  let err := JsError.mk "MongoNetworkError" None "connection closed" in
  let p := fun call => match call with
                       | GetAllToDos => Some err
                       | _ => None
                       end in
  p Connect = None
  /\ p UpdateToDo = None
  /\ p GetAllToDos = Some err
  /\ modifiedCount
       (snd (updateOne (parseInt_param (params_id req))
               (updateData (body req)) (docs c))) <> 0
  /\ catch_next (Try.update req) p c
     = (inl {| failure_status := 500;
               failure_sent := Error_interno_del_servidor |},
        {| docs := [ {| _id := 0; id := 1; title := JStr "a";
                        completed := JBool true |} ];
           next_oid := 1 |},
        [Connect; UpdateToDo; GetAllToDos]).
Proof.
  intros c req err p.
  assert (p Connect = None) as Hc by reflexivity.
  assert (p UpdateToDo = None) as Hu by reflexivity.
  assert (p GetAllToDos = Some err) as Hg by reflexivity.
  assert (modifiedCount
            (snd (updateOne (parseInt_param (params_id req))
                    (updateData (body req)) (docs c))) <> 0) as Hm
    by (vm_compute; discriminate).
  split; [exact Hc|]. split; [exact Hu|]. split; [exact Hg|].
  split; [exact Hm|].
  exact (proj1 (update_may_persist_and_fail req p c err Hc Hu Hg Hm)).
Defined.

(** X16.  When the insertion of a creation fails with a duplicate-key
    error of the server (code 11000), the answer is 409, the calls made
    are connect, list and insert, and the collection is unchanged. *)
Theorem duplicate_key_on_insert_is_conflict
  (req : request) (p : faults) (c : collection) (err : JsError.t) :
  truthy (get_prop (body req) "title") = true ->
  p Connect = None ->
  p GetAllToDos = None ->
  p InsertToDo = Some err ->
  JsError.code err = Some 11000 ->
  JsError.name err <> "ValidationError"%string ->
  JsError.name err <> "CastError"%string ->
  catch_next (Try.create req) p c
  = (inl {| failure_status := 409; failure_sent := Duplicado_detectado |},
     c, [Connect; GetAllToDos; InsertToDo]).
Proof.
  intros Ht Hc Hg Hi Hcode Hv Hcast.
  rewrite create_faults, (create_accepted req c Ht).
  unfold outcome_with_faults. cbn [trace snd first_fault].
  rewrite Hc, Hg, Hi. cbn [existsb mutates firstn orb].
  unfold errorHandler.
  apply String.eqb_neq in Hv, Hcast. rewrite Hv, Hcast, Hcode. reflexivity.
Qed.

Lemma duplicate_key_on_insert_is_conflict_witness :
  let req := post [("title"%string, JStr "a")] in
  let err := JsError.mk "MongoServerError" (Some 11000)
               "E11000 duplicate key error" in
  let p := fun call => match call with
                       | InsertToDo => Some err
                       | _ => None
                       end in
  truthy (get_prop (body req) "title") = true
  /\ p Connect = None
  /\ p GetAllToDos = None
  /\ p InsertToDo = Some err
  /\ JsError.code err = Some 11000
  /\ JsError.name err <> "ValidationError"%string
  /\ JsError.name err <> "CastError"%string
  /\ catch_next (Try.create req) p empty_collection
     = (inl {| failure_status := 409; failure_sent := Duplicado_detectado |},
        empty_collection, [Connect; GetAllToDos; InsertToDo]).
Proof.
  intros req err p.
  assert (truthy (get_prop (body req) "title") = true) as Ht by reflexivity.
  assert (p Connect = None) as Hc by reflexivity.
  assert (p GetAllToDos = None) as Hg by reflexivity.
  assert (p InsertToDo = Some err) as Hi by reflexivity.
  assert (JsError.code err = Some 11000) as Hcode by reflexivity.
  assert (JsError.name err <> "ValidationError"%string) as Hv
    by discriminate.
  assert (JsError.name err <> "CastError"%string) as Hcast by discriminate.
  split; [exact Ht|]. split; [exact Hc|]. split; [exact Hg|].
  split; [exact Hi|]. split; [exact Hcode|]. split; [exact Hv|].
  split; [exact Hcast|].
  exact (duplicate_key_on_insert_is_conflict req p empty_collection err
           Ht Hc Hg Hi Hcode Hv Hcast).
Defined.

Lemma errorHandler_named (err : JsError.t) :
  (JsError.name err = "ValidationError"%string ->
   errorHandler err
   = {| failure_status := 400;
        failure_sent := Error_de_validacion (JsError.message err) |})
  /\ (JsError.name err <> "ValidationError"%string ->
      JsError.name err = "CastError"%string ->
      errorHandler err
      = {| failure_status := 400; failure_sent := ID_invalido |}).
Proof.
  unfold errorHandler. split.
  - intros Hv. apply String.eqb_eq in Hv. rewrite Hv. reflexivity.
  - intros Hv Hcast. apply String.eqb_neq in Hv. apply String.eqb_eq in Hcast.
    rewrite Hv, Hcast. reflexivity.
Qed.

Lemma errorHandler_coded (err : JsError.t) :
  JsError.name err <> "ValidationError"%string ->
  JsError.name err <> "CastError"%string ->
  (JsError.code err = Some 11000
   /\ errorHandler err
      = {| failure_status := 409; failure_sent := Duplicado_detectado |})
  \/ (JsError.code err <> Some 11000
      /\ errorHandler err
         = {| failure_status := 500;
              failure_sent := Error_interno_del_servidor |}).
Proof.
  intros Hv Hcast. unfold errorHandler.
  apply String.eqb_neq in Hv. apply String.eqb_neq in Hcast.
  rewrite Hv, Hcast.
  destruct (JsError.code err) as [k|]; [|right; split; [discriminate|reflexivity]].
  destruct (Z.eq_dec k 11000) as [-> | Hk]; [left; split; reflexivity|].
  right. split; [congruence|].
  destruct k as [|q|q]; try reflexivity.
  repeat (destruct q as [q|q|]; try reflexivity).
  contradiction Hk. reflexivity.
Qed.

(** X17.  [errorHandler] answers with 400, 409 or 500: with 400 exactly
    for an error named ValidationError or CastError, and with 409
    exactly for code 11000 on an error with neither name.  The message
    of an error reaches the client only for an error named
    ValidationError, as the [details] of the answer: two errors with the
    same name, not ValidationError, and the same code get the same
    answer whatever their messages. *)
Theorem errorHandler_hides_messages (err err' : JsError.t) :
  (failure_status (errorHandler err) = 400
   \/ failure_status (errorHandler err) = 409
   \/ failure_status (errorHandler err) = 500)
  /\ (failure_status (errorHandler err) = 400 <->
      JsError.name err = "ValidationError"%string
      \/ JsError.name err = "CastError"%string)
  /\ (failure_status (errorHandler err) = 409 <->
      JsError.code err = Some 11000
      /\ JsError.name err <> "ValidationError"%string
      /\ JsError.name err <> "CastError"%string)
  /\ (JsError.name err = "ValidationError"%string ->
      failure_sent (errorHandler err)
      = Error_de_validacion (JsError.message err))
  /\ (JsError.name err <> "ValidationError"%string ->
      JsError.name err = JsError.name err' ->
      JsError.code err = JsError.code err' ->
      errorHandler err = errorHandler err').
Proof.
  destruct (errorHandler_named err) as [Hval Hcast].
  destruct (errorHandler_named err') as [_ Hcast'].
  destruct (String.eqb_spec (JsError.name err) "ValidationError") as [Hv|Hv].
  { rewrite (Hval Hv). cbn [failure_status failure_sent].
    split; [left; reflexivity|].
    split; [split; [intros _; left; exact Hv | reflexivity]|].
    split; [split; [discriminate | intros (_ & H & _); contradiction]|].
    split; [reflexivity | contradiction]. }
  destruct (String.eqb_spec (JsError.name err) "CastError") as [Hc|Hc].
  { rewrite (Hcast Hv Hc). cbn [failure_status failure_sent].
    split; [left; reflexivity|].
    split; [split; [intros _; right; exact Hc | reflexivity]|].
    split; [split; [discriminate | intros (_ & _ & H); contradiction]|].
    split; [contradiction|].
    intros _ Hname Hcode. symmetry. apply Hcast'; congruence. }
  destruct (errorHandler_coded err Hv Hc) as [[Hk ->] | [Hk ->]];
    cbn [failure_status failure_sent].
  - split; [right; left; reflexivity|].
    split; [split; [discriminate | intros [H | H]; contradiction]|].
    split; [split; [intros _; repeat split; assumption | reflexivity]|].
    split; [contradiction|].
    intros _ Hname Hcode.
    destruct (errorHandler_coded err') as [[_ ->] | [Hk' _]];
      congruence.
  - split; [right; right; reflexivity|].
    split; [split; [discriminate | intros [H | H]; contradiction]|].
    split; [split; [discriminate | intros (H & _); contradiction]|].
    split; [contradiction|].
    intros _ Hname Hcode.
    destruct (errorHandler_coded err') as [[Hk' _] | [_ ->]];
      congruence.
Qed.

Lemma errorHandler_hides_messages_witness :
  let err := JsError.mk "MongoServerError" (Some 11000) "E11000 a" in
  let err' := JsError.mk "MongoServerError" (Some 11000) "E11000 b" in
  let invalid := JsError.mk "ValidationError" (Some 11000) "title" in
  JsError.name err <> "ValidationError"%string
  /\ JsError.name err = JsError.name err'
  /\ JsError.code err = JsError.code err'
  /\ errorHandler err = errorHandler err'
  /\ failure_status (errorHandler err) = 409
  /\ failure_status (errorHandler invalid) = 400
  /\ failure_sent (errorHandler invalid) = Error_de_validacion "title".
Proof.
  intros err err' invalid.
  assert (JsError.name err <> "ValidationError"%string) as Hv
    by discriminate.
  assert (JsError.name err = JsError.name err') as Hname by reflexivity.
  assert (JsError.code err = JsError.code err') as Hcode by reflexivity.
  split; [exact Hv|]. split; [exact Hname|]. split; [exact Hcode|].
  destruct (errorHandler_hides_messages err err')
    as (_ & _ & H409 & _ & Hsame).
  destruct (errorHandler_hides_messages invalid err)
    as (_ & H400 & _ & Hdetails & _).
  split; [exact (Hsame Hv Hname Hcode)|].
  split; [apply H409; repeat split; discriminate|].
  split; [apply H400; left; reflexivity | apply Hdetails; reflexivity].
Defined.

End Failures.
